(** * Training orchestration of master_work: OnlineAvg, Stopper, Trainer

    A shallow embedding of [utils/common.py] (the running average and the
    early-stop policy) and of the orchestration logic of [trainer.py]
    (the evaluation offsets of [Trainer.test], [Trainer.train_epoch],
    [Trainer.visualize_errors] and the epoch loop of [Trainer.train]),
    with the properties the specification states about them.

    Numbers.  Python integers are [Z] (or [nat] where the code only counts
    upwards from zero and indexes arrays).  The true division of two
    integers, [a / b], is the binary64 number nearest to the quotient; it
    is modelled on integers, rounding included.  [OnlineAvg] is written
    once for any number type, as the Python class is, and instantiated
    with binary64 numbers (Python floats) and with exact rationals
    (Python fractions).  The monitored metric and the early-stop margin
    are only compared and subtracted; they are rationals [Q], compared
    with the boolean tests below. *)

From Stdlib Require Import ZArith QArith List Bool Lia Lqa Permutation.
From Stdlib Require Uint63.
From Corelib Require Import PrimFloat.
Import ListNotations.

Set Warnings "-inexact-float".

Open Scope Q_scope.

(** ** Python outcomes *)

Inductive exn : Type :=
| TypeError
| ZeroDivisionError
| ValueError
| FileNotFoundError
| OverflowError
| IndexError.

Inductive res (A : Type) : Type :=
| Ok (a : A)
| Raise (e : exn).

Arguments Ok {A} a.
Arguments Raise {A} e.

Definition bind {A B : Type} (m : res A) (k : A -> res B) : res B :=
  match m with
  | Ok a => k a
  | Raise e => Raise e
  end.

Notation "x <- m ;; k" := (bind m (fun x => k))
  (at level 61, m at next level, right associativity).

(** ** Python comparisons and [max] on rationals *)

Definition Qgeb (a b : Q) : bool := Qle_bool b a.
Definition Qltb (a b : Q) : bool := negb (Qle_bool b a).

(** [max(a, b)] of Python: the first argument unless the second is
    strictly greater. *)
Definition py_max (a b : Q) : Q := if Qltb a b then b else a.

(** ** Python's true division of integers

    [a / b] on integers is the binary64 number nearest to the exact
    quotient, ties to even.  For positive [a] and [b] that number is
    [m * 2 ^ e] with a mantissa [m] of 53 bits: [e] is the exponent for
    which the quotient scaled by [2 ^ (- e)] lies in [2^52, 2^53), and
    [m] is that scaled quotient rounded to an integer. *)

Definition scaled_num (a e : Z) : Z :=
  if (0 <=? e)%Z then a else (a * 2 ^ (- e))%Z.

Definition scaled_den (b e : Z) : Z :=
  if (0 <=? e)%Z then (b * 2 ^ e)%Z else b.

Definition rne_exponent (a b : Z) : Z :=
  let e0 := (Z.log2 a - Z.log2 b - 52)%Z in
  if (2 ^ 52 * scaled_den b e0 <=? scaled_num a e0)%Z
  then e0 else (e0 - 1)%Z.

Definition rne_mantissa (a b e : Z) : Z :=
  let N := scaled_num a e in
  let D := scaled_den b e in
  let q := (N / D)%Z in
  let r := (N mod D)%Z in
  if ((D <? 2 * r) || ((D =? 2 * r) && Z.odd q))%Z
  then (q + 1)%Z else q.

(** [int(a / b)]: the rounded quotient truncated towards zero.  A zero
    divisor and a quotient beyond the binary64 range raise.  (Below the
    normal range the quotient has fewer bits than [m]; truncated it is 0
    either way.) *)
Definition py_int_true_div (a b : Z) : res Z :=
  if (b =? 0)%Z then Raise ZeroDivisionError
  else if (a =? 0)%Z then Ok 0%Z
  else
    let e := rne_exponent (Z.abs a) (Z.abs b) in
    let m := rne_mantissa (Z.abs a) (Z.abs b) e in
    if (0 <=? e)%Z then
      if (2 ^ 1024 <=? m * 2 ^ e)%Z then Raise OverflowError
      else Ok (Z.sgn a * Z.sgn b * (m * 2 ^ e))%Z
    else Ok (Z.sgn a * Z.sgn b * (m / 2 ^ (- e)))%Z.

(** [float(z)]: the binary64 number nearest to the integer, which is the
    integer itself below [2^53]; an integer beyond the binary64 range
    raises. *)
Definition float_of_Z (z : Z) : res float :=
  let a := Z.abs z in
  let sign := fun x : float => if (z <? 0)%Z then PrimFloat.opp x else x in
  if (a <? 2 ^ 53)%Z
  then Ok (sign (PrimFloat.of_uint63 (Uint63.of_Z a)))
  else
    let e := rne_exponent a 1 in
    let m := rne_mantissa a 1 e in
    if (2 ^ 1024 <=? m * 2 ^ e)%Z then Raise OverflowError
    else Ok (sign (PrimFloat.mul (PrimFloat.of_uint63 (Uint63.of_Z m))
                     (Z.iter e (fun x => PrimFloat.mul x 2%float) 1%float))).

(** ** The numbers OnlineAvg works on

    The class uses [*], [+] and [/] of whatever it is fed, with its own
    integer counter as the other operand: [num_of_int] is the conversion
    of that integer operand, [num_zero] the initial [0]. *)

Class Number (T : Type) : Type := {
  num_zero : T;
  num_of_int : Z -> res T;
  num_add : T -> T -> T;
  num_mul : T -> T -> T;
  num_div : T -> T -> res T
}.

(** Python floats. *)
#[global] Instance Binary64 : Number float := {
  num_zero := 0%float;
  num_of_int := float_of_Z;
  num_add := PrimFloat.add;
  num_mul := PrimFloat.mul;
  num_div := fun x y =>
    if PrimFloat.eqb y 0%float then Raise ZeroDivisionError
    else Ok (PrimFloat.div x y)
}.

(** Exact rationals ([fractions.Fraction]). *)
#[global] Instance Exact : Number Q := {
  num_zero := 0;
  num_of_int := fun z => Ok (inject_Z z);
  num_add := Qplus;
  num_mul := Qmult;
  num_div := fun x y =>
    if Qeq_bool y 0 then Raise ZeroDivisionError else Ok (x / y)
}.

(** ** utils/common.py: OnlineAvg *)

Module OnlineAvg.

Section Generic.

Context {T : Type} {num : Number T}.

Record t : Type := mk { avg : T; n : Z }.

Definition __init__ : t := {| avg := num_zero; n := 0 |}.

(** [self.n += 1; self.avg = (self.avg * (self.n - 1) + new_x) / self.n] *)
Definition update (self : t) (new_x : T) : res t :=
  let n' := (n self + 1)%Z in
  k <- num_of_int (n' - 1) ;;
  let s := num_add (num_mul (avg self) k) new_x in
  d <- num_of_int n' ;;
  q <- num_div s d ;;
  Ok {| avg := q; n := n' |}.

(** Feeding a sequence, one [update] per element, first to last. *)
Fixpoint feed (self : t) (xs : list T) : res t :=
  match xs with
  | [] => Ok self
  | x :: xs' => s <- update self x ;; feed s xs'
  end.

(** The value of [avg] read after each [update]. *)
Fixpoint means (self : t) (xs : list T) : res (list T) :=
  match xs with
  | [] => Ok []
  | x :: xs' =>
      s <- update self x ;;
      ms <- means s xs' ;;
      Ok (avg s :: ms)
  end.

(** [sum(xs)], from the initial 0 and left to right. *)
Definition sum (xs : list T) : T := fold_left num_add xs num_zero.

(** The mean by naive summation, [sum(xs) / len(xs)]. *)
Definition naive_mean (xs : list T) : res T :=
  d <- num_of_int (Z.of_nat (length xs)) ;;
  num_div (sum xs) d.

End Generic.

Arguments t T : clear implicits.

End OnlineAvg.

(** ** utils/common.py: Stopper *)

Module Stopper.

Record t : Type := mk {
  n_observation : Z;
  delta : Q;
  cur_val : option Q;
  value_max : Q;
  num_fails : Z
}.

(** The constructor stores its two arguments and initialises the three
    counters; it checks nothing. *)
Definition __init__ (n_observation : Z) (delta : Q) : res t :=
  Ok {| n_observation := n_observation;
        delta := delta;
        cur_val := None;
        value_max := 0;
        num_fails := 0 |}.

Definition set_cur_val (self : t) (v : Q) : t :=
  {| n_observation := n_observation self; delta := delta self;
     cur_val := Some v;
     value_max := value_max self; num_fails := num_fails self |}.

Definition set_value_max (self : t) (m : Q) : t :=
  {| n_observation := n_observation self; delta := delta self;
     cur_val := cur_val self;
     value_max := m; num_fails := num_fails self |}.

Definition set_num_fails (self : t) (k : Z) : t :=
  {| n_observation := n_observation self; delta := delta self;
     cur_val := cur_val self;
     value_max := value_max self; num_fails := k |}.

(** [if self.value_max < self.cur_val: self.value_max = self.cur_val];
    comparing with the unset [cur_val] ([None]) is a TypeError. *)
Definition _update_max (self : t) : res t :=
  match cur_val self with
  | None => Raise TypeError
  | Some c =>
      if Qltb (value_max self) c then Ok (set_value_max self c)
      else Ok self
  end.

(** [if self.value_max - self.cur_val >= self.delta: self.num_fails += 1
     else: self.num_fails = 0] *)
Definition _count_fails (self : t) : res t :=
  match cur_val self with
  | None => Raise TypeError
  | Some c =>
      if Qgeb (value_max self - c) (delta self)
      then Ok (set_num_fails self (num_fails self + 1)%Z)
      else Ok (set_num_fails self 0%Z)
  end.

(** [self.cur_val = cur_val; self._update_max(); self._count_fails()] *)
Definition update (self : t) (v : Q) : res t :=
  s1 <- _update_max (set_cur_val self v) ;;
  _count_fails s1.

Definition check_criterion (self : t) : bool :=
  (num_fails self =? n_observation self)%Z.

(** Feeding observations one at a time and reading [check_criterion]
    after each. *)
Fixpoint feed (self : t) (vs : list Q) : res (t * list bool) :=
  match vs with
  | [] => Ok (self, [])
  | v :: vs' =>
      s <- update self v ;;
      r <- feed s vs' ;;
      Ok (fst r, check_criterion s :: snd r)
  end.

(** The update as the specification words it: the failure check against
    the best value held before the update, and only then the best value
    raised to [max(best_value, v)].  It is compared with [update] below;
    the program runs [update]. *)
Definition spec_update (self : t) (v : Q) : t :=
  let fails :=
    if Qgeb (value_max self - v) (delta self)
    then (num_fails self + 1)%Z else 0%Z in
  {| n_observation := n_observation self; delta := delta self;
     cur_val := Some v;
     value_max := py_max (value_max self) v;
     num_fails := fails |}.

End Stopper.

(** ** trainer.py: Trainer *)

Module Trainer.

(** *** Trainer.test *)

(** The two transform modes of the evaluation set. *)
Inductive transforms : Type :=
| DefaultTransforms
| TestTransforms (n_augs : Z).

(** The head of [Trainer.test]: the transform mode and the loader's
    batch size.  [self.batch_size / n_tta] is Python's true division and
    [int] truncates it. *)
Definition setup (batch_size n_tta : Z) : res (transforms * Z) :=
  if negb (n_tta =? 0)%Z
  then b <- py_int_true_div batch_size n_tta ;; Ok (TestTransforms n_tta, b)
  else Ok (DefaultTransforms, batch_size).

(** torch's batch sampler over a sequential sampler, [drop_last] left at
    its default: indices are appended to [batch]; a full batch is
    yielded and a new one started; what remains at the end is yielded if
    it is not empty. *)
Fixpoint batch_sampler (batch_size : nat) (batch sampler : list nat)
  : list (list nat) :=
  match sampler with
  | [] => match batch with [] => [] | _ :: _ => [batch] end
  | idx :: sampler' =>
      let batch' := batch ++ [idx] in
      if (length batch' =? batch_size)%nat
      then batch' :: batch_sampler batch_size [] sampler'
      else batch_sampler batch_size batch' sampler'
  end.

(** [DataLoader(dataset, batch_size, shuffle=False)] of torch, as the
    library behaves: the batches of sample indices, in order; a batch size
    that is not positive is refused by the loader. *)
Definition DataLoader (n_samples : nat) (batch_size : Z)
  : res (list (list nat)) :=
  if (batch_size <=? 0)%Z then Raise ValueError
  else Ok (batch_sampler (Z.to_nat batch_size) [] (seq 0 n_samples)).

Definition enumerate {A : Type} (l : list A) : list (nat * A) :=
  combine (seq 0 (length l)) l.

(** [arr[i_start: i_stop] = vals] on a numpy column: the slice is
    clipped to the array, the values must have the slice's length, and a
    single value is broadcast over the slice. *)
Definition assign_slice {A : Type} (arr : list A) (i_start i_stop : nat)
  (vals : list A) : res (list A) :=
  let a := Nat.min i_start (length arr) in
  let b := Nat.max a (Nat.min i_stop (length arr)) in
  if (length vals =? b - a)%nat
  then Ok (firstn a arr ++ vals ++ skipn b arr)
  else match vals with
       | [x] => Ok (firstn a arr ++ repeat x (b - a) ++ skipn b arr)
       | _ => Raise ValueError
       end.

Record arrays : Type := mk_arrays {
  labels : list Z;
  preds : list Z;
  confs : list Q
}.

Definition zeros (n_samples : nat) : arrays :=
  {| labels := repeat 0%Z n_samples;
     preds := repeat 0%Z n_samples;
     confs := repeat 0 n_samples |}.

Section Loop.

(** The evaluation set's label of a sample, and the classifier's
    prediction and confidence for it (one pair per sample, whatever
    the number of views). *)
Variable label_of : nat -> Z.
Variable classify : nat -> Z * Q.

(** The arrays when the first [k] positions hold the results of the
    samples [0 .. k-1] and the [m] positions after them are still
    zero; the loop ends with [filled n_samples 0]. *)
Definition filled (k m : nat) : arrays :=
  {| labels := map label_of (seq 0 k) ++ repeat 0%Z m;
     preds := map (fun idx => fst (classify idx)) (seq 0 k)
              ++ repeat 0%Z m;
     confs := map (fun idx => snd (classify idx)) (seq 0 k)
              ++ repeat 0 m |}.

Definition i_start (i batch_size : nat) : nat := i * batch_size.
Definition i_stop (i batch_size n_samples : nat) : nat :=
  Nat.min (i_start i batch_size + batch_size) n_samples.

(** The body of the loop over [enumerate(loader)]. *)
Definition step (n_samples batch_size : nat) (a : arrays)
  (i : nat) (data : list nat) : res arrays :=
  let lo := i_start i batch_size in
  let hi := i_stop i batch_size n_samples in
  ls <- assign_slice (labels a) lo hi (map label_of data) ;;
  ps <- assign_slice (preds a) lo hi
          (map (fun idx => fst (classify idx)) data) ;;
  cs <- assign_slice (confs a) lo hi
          (map (fun idx => snd (classify idx)) data) ;;
  Ok {| labels := ls; preds := ps; confs := cs |}.

Fixpoint loop (n_samples batch_size : nat) (a : arrays)
  (batches : list (nat * list nat)) : res arrays :=
  match batches with
  | [] => Ok a
  | (i, data) :: rest =>
      a' <- step n_samples batch_size a i data ;;
      loop n_samples batch_size a' rest
  end.

(** [Trainer.test] up to the arrays handed to the metrics
    calculator. *)
Definition test (n_samples : nat) (batch_size n_tta : Z) : res arrays :=
  s <- setup batch_size n_tta ;;
  batches <- DataLoader n_samples (snd s) ;;
  loop n_samples (Z.to_nat (snd s)) (zeros n_samples) (enumerate batches).

End Loop.

(** The index ranges written, one per batch. *)
Definition slices (n_samples batch_size : nat) : list (nat * nat) :=
  map (fun b => (i_start (fst b) batch_size,
                 i_stop (fst b) batch_size n_samples))
      (enumerate (batch_sampler batch_size [] (seq 0 n_samples))).

(** The ranges [ranges], in order, tile the indices [from, to): each
    starts where the previous one stops, none is empty and none reaches
    beyond [to]. *)
Fixpoint tiles (from : nat) (ranges : list (nat * nat)) (to : nat) : Prop :=
  match ranges with
  | [] => from = to
  | (a, b) :: rest =>
      a = from /\ (a < b)%nat /\ (b <= to)%nat /\ tiles b rest to
  end.

(** *** Trainer.train *)

Section Train.

(** The collaborators of the loop: the model parameters (an opaque
    value), what one call of [train_epoch] makes of them or the exception
    it raises, and the accuracy [self.test(n_tta)] reports for given
    parameters. *)
Variable Params : Type.
Variable train_epoch : Params -> res Params.
Variable test_accuracy : Params -> Z -> res Q.
Variable test_freq : Z.

Inductive event : Type :=
| EvTrainEpoch (i : nat)
| EvTest (n_tta : Z)
| EvSaveEpoch (i : nat) (acc : Q)
| EvSaveBest (acc : Q)
| EvStopped (i : nat)
| EvLoadBest.

(** A checkpoint file: the parameters and the metadata [{'acc': acc}]. *)
Record ckpt : Type := mk_ckpt { ck_params : Params; ck_acc : Q }.

(** The state the loop works on: the live parameters, the locals
    [acc_max] and [best_epoch], the stopper passed in, the checkpoint
    directory (one file per evaluated epoch, and [best.pth.tar]), and
    the calls made so far, oldest first. *)
Record state : Type := mk_state {
  params : Params;
  acc_max : Q;
  best_epoch : nat;
  stopper : Stopper.t;
  epoch_ckpts : list (nat * ckpt);
  best_ckpt : option ckpt;
  trace : list event
}.

(** What the loop keeps true of [acc_max] and the checkpoint directory:
    no per-epoch checkpoint has a metric above [acc_max]; the best
    checkpoint, once written, is one of the per-epoch checkpoints and
    stores [acc_max]; as long as it is not written, [acc_max] is still
    the initial 0. *)
Definition best_inv (st : state) : Prop :=
  (forall i c, In (i, c) (epoch_ckpts st) ->
               ck_acc c <= acc_max st) /\
  match best_ckpt st with
  | Some b =>
      ck_acc b = acc_max st /\
      exists i, In (i, b) (epoch_ckpts st)
  | None => acc_max st = 0
  end.

Definition log (e : event) (st : state) : state :=
  {| params := params st; acc_max := acc_max st;
     best_epoch := best_epoch st; stopper := stopper st;
     epoch_ckpts := epoch_ckpts st; best_ckpt := best_ckpt st;
     trace := trace st ++ [e] |}.

Definition set_params (p : Params) (st : state) : state :=
  {| params := p; acc_max := acc_max st;
     best_epoch := best_epoch st; stopper := stopper st;
     epoch_ckpts := epoch_ckpts st; best_ckpt := best_ckpt st;
     trace := trace st |}.

Definition set_stopper (s : Stopper.t) (st : state) : state :=
  {| params := params st; acc_max := acc_max st;
     best_epoch := best_epoch st; stopper := s;
     epoch_ckpts := epoch_ckpts st; best_ckpt := best_ckpt st;
     trace := trace st |}.

(** [self.classifier.save(save_path, meta={'acc': acc})] for
    [epoch{i}.pth.tar]. *)
Definition save_epoch (i : nat) (acc : Q) (st : state) : state :=
  log (EvSaveEpoch i acc)
    {| params := params st; acc_max := acc_max st;
       best_epoch := best_epoch st; stopper := stopper st;
       epoch_ckpts :=
         epoch_ckpts st ++ [(i, {| ck_params := params st; ck_acc := acc |})];
       best_ckpt := best_ckpt st;
       trace := trace st |}.

(** [acc_max, best_epoch = acc, i] and the save to [best_ckpt_path]. *)
Definition save_best (i : nat) (acc : Q) (st : state) : state :=
  log (EvSaveBest acc)
    {| params := params st; acc_max := acc;
       best_epoch := i; stopper := stopper st;
       epoch_ckpts := epoch_ckpts st;
       best_ckpt := Some {| ck_params := params st; ck_acc := acc |};
       trace := trace st |}.

(** One turn of [for i in range(n_max_epoch)]; the boolean is [true]
    when the turn ends in [break]. *)
Definition epoch (i : nat) (st : state) : res (state * bool) :=
  p <- train_epoch (params st) ;;
  let st := log (EvTrainEpoch i) (set_params p st) in
  if (test_freq =? 0)%Z then Raise ZeroDivisionError
  else if (Z.of_nat i mod test_freq =? 0)%Z then
    acc <- test_accuracy (params st) 0%Z ;;
    let st := log (EvTest 0%Z) st in
    let st := save_epoch i acc st in
    let st := if Qltb (acc_max st) acc then save_best i acc st else st in
    s <- Stopper.update (stopper st) acc ;;
    let st := set_stopper s st in
    if Stopper.check_criterion s
    then Ok (log (EvStopped i) st, true)
    else Ok (st, false)
  else Ok (st, false).

Fixpoint epochs (range : list nat) (st : state) : res state :=
  match range with
  | [] => Ok st
  | i :: range' =>
      r <- epoch i st ;;
      if snd r then Ok (fst r) else epochs range' (fst r)
  end.

(** Modelled from the spec: [Classifier.load] is not among the sources;
    the specification (section 7) makes a checkpoint that cannot be read
    fatal for the run, so loading [best.pth.tar] when it was never
    written raises, and otherwise installs the stored parameters. *)
Definition load_best (st : state) : res state :=
  match best_ckpt st with
  | None => Raise FileNotFoundError
  | Some c => Ok (log EvLoadBest (set_params (ck_params c) st))
  end.

(** What follows the loop: the reload, the evaluation with [n_tta] and
    the returned [max(acc_max, acc_tta)]. *)
Definition finalize (n_tta : Z) (st : state) : res (Q * state) :=
  st <- load_best st ;;
  acc_tta <- test_accuracy (params st) n_tta ;;
  Ok (py_max (acc_max st) acc_tta, log (EvTest n_tta) st).

(** The state the loop starts from: [acc_max, best_epoch = 0, 0], the
    stopper passed in, the trainer's parameters and its checkpoint
    directory as they are. *)
Definition start (p : Params) (s : Stopper.t)
  (dir : list (nat * ckpt)) (best : option ckpt) : state :=
  {| params := p; acc_max := 0; best_epoch := 0%nat; stopper := s;
     epoch_ckpts := dir; best_ckpt := best; trace := [] |}.

(** [train(n_max_epoch, n_tta, stopper)] on a trainer whose classifier
    has the parameters [p] and whose checkpoint directory holds [dir] and
    [best]: the returned metric and the state left behind. *)
Definition train (n_max_epoch n_tta : Z) (s : Stopper.t)
  (p : Params) (dir : list (nat * ckpt)) (best : option ckpt)
  : res (Q * state) :=
  st <- epochs (seq 0 (Z.to_nat n_max_epoch)) (start p s dir best) ;;
  finalize n_tta st.

End Train.

Arguments ck_params {Params} c.
Arguments ck_acc {Params} c.
Arguments params {Params} s.
Arguments acc_max {Params} s.
Arguments best_epoch {Params} s.
Arguments stopper {Params} s.
Arguments epoch_ckpts {Params} s.
Arguments best_ckpt {Params} s.
Arguments trace {Params} s.

End Trainer.

(** ** The scenarios of the specification *)

Module Scenario.

(** The policy of the specification's early-stop example, before any
    observation. *)
Definition stopper_3_001 : Stopper.t :=
  {| Stopper.n_observation := 3; Stopper.delta := 0.01;
     Stopper.cur_val := None; Stopper.value_max := 0;
     Stopper.num_fails := 0 |}.

(** The policy of the end-to-end run: threshold 3, margin 0. *)
Definition stopper_3_0 : Stopper.t :=
  {| Stopper.n_observation := 3; Stopper.delta := 0;
     Stopper.cur_val := None; Stopper.value_max := 0;
     Stopper.num_fails := 0 |}.

(** The end-to-end run.  The parameters are identified by the number of
    epochs trained; the evaluation without augmentation reports the
    accuracies of the scenario, the one with augmentation reports
    [m_tta]. *)
Definition accuracies : list Q := [0.60; 0.62; 0.61; 0.60; 0.59].

Definition train_epoch (p : nat) : res nat := Ok (S p).

Definition test_accuracy (m_tta : Q) (p : nat) (n_tta : Z) : res Q :=
  if (n_tta =? 0)%Z then Ok (nth (p - 1) accuracies 0) else Ok m_tta.

Definition run (m_tta : Q) : res (Q * Trainer.state nat) :=
  Trainer.train nat train_epoch (test_accuracy m_tta) 1 5 8
    stopper_3_0 0%nat [] None.

(** A run whose only evaluated epoch has accuracy 0. *)
Definition zero_accuracy (p : nat) (n_tta : Z) : res Q := Ok 0.

Definition zero_run : res (Q * Trainer.state nat) :=
  Trainer.train nat train_epoch zero_accuracy 1 1 8
    stopper_3_001 0%nat [] None.

(** The same policy fed through the specification's order of update. *)
Fixpoint spec_feed (s : Stopper.t) (vs : list Q) : list bool :=
  match vs with
  | [] => []
  | v :: vs' =>
      let s' := Stopper.spec_update s v in
      Stopper.check_criterion s' :: spec_feed s' vs'
  end.

End Scenario.

(** ** trainer.py: Trainer.train_epoch *)

Module TrainEpoch.

(** The scalars written to the board: [add_scalar(tag, value, step)]. *)
Inductive tag : Type := Loss | AvgLoss.

Section Epoch.

(** The numbers the losses are (tensors, for the program), with the
    arithmetic [OnlineAvg] uses on them. *)
Context {T : Type} {num : Number T}.

Record scalar : Type := mk_scalar {
  sc_tag : tag;
  sc_value : T;
  sc_step : Z
}.

(** The collaborators: the loss the criterion gives for a batch under
    given parameters, and what [backward] and [optimizer.step] make of
    the parameters. *)
Variable Params : Type.
Variable loss_of : Params -> list nat -> T.
Variable optimizer_step : Params -> list nat -> Params.

(** What an epoch works on: the parameters, the counter [i_global] and
    the scalars written so far, oldest first. *)
Record state : Type := mk_state {
  params : Params;
  i_global : Z;
  writer : list scalar
}.

(** The body of the loop over the loader: the loss of the batch, one
    optimizer step, [avg_loss.update(loss)], [i_global += 1] and the
    scalar ['Loss'] at the new [i_global]. *)
Definition batch (avg_loss : OnlineAvg.t T) (st : state) (data : list nat)
  : res (OnlineAvg.t T * state) :=
  let loss := loss_of (params st) data in
  let p := optimizer_step (params st) data in
  avg <- OnlineAvg.update avg_loss loss ;;
  let g := (i_global st + 1)%Z in
  Ok (avg,
      {| params := p; i_global := g;
         writer := writer st
                   ++ [{| sc_tag := Loss; sc_value := loss; sc_step := g |}] |}).

Fixpoint loop (batches : list (list nat)) (avg_loss : OnlineAvg.t T)
  (st : state) : res (OnlineAvg.t T * state) :=
  match batches with
  | [] => Ok (avg_loss, st)
  | data :: rest =>
      r <- batch avg_loss st data ;;
      loop rest (fst r) (snd r)
  end.

(** [train_epoch] for a loader that yields the training indices in the
    order [sampler] (the permutation drawn by [shuffle=True]): the loop,
    then the scalar ['AvgLoss'] with [avg_loss.avg] at the final
    [i_global].  The loader refuses a batch size that is not positive
    and, shuffling, an empty training set. *)
Definition train_epoch (sampler : list nat) (batch_size : Z) (st : state)
  : res state :=
  if (batch_size <=? 0)%Z then Raise ValueError
  else
    match sampler with
    | [] => Raise ValueError
    | _ :: _ =>
        r <- loop (Trainer.batch_sampler (Z.to_nat batch_size) [] sampler)
                  OnlineAvg.__init__ st ;;
        Ok {| params := params (snd r); i_global := i_global (snd r);
              writer := writer (snd r)
                        ++ [{| sc_tag := AvgLoss;
                               sc_value := OnlineAvg.avg (fst r);
                               sc_step := i_global (snd r) |}] |}
    end.

End Epoch.

Arguments scalar T : clear implicits.
Arguments state T Params : clear implicits.
Arguments params {T Params} s.
Arguments i_global {T Params} s.
Arguments writer {T Params} s.

End TrainEpoch.

(** ** trainer.py: Trainer.visualize_errors *)

Module Visualize.

Section Grid.

(** The images (an opaque value) and the two calls on the evaluation set:
    the sample with its red caption, and [n_samples] samples of a
    class. *)
Variable image : Type.
Variable get_signed_image : nat -> image.
Variable get_class_samples : nat -> Z -> list image.

(** The body of the loop over [zip(ii_worst, labels_gt)]:
    [torch.cat([images_tensor, image.unsqueeze(0), class_images], 0)]. *)
Definition add_mistake (images_tensor : list image) (m : nat * Z)
  : list image :=
  images_tensor ++ [get_signed_image (fst m)] ++ get_class_samples 5 (snd m).

(** The images handed to [make_grid(images_tensor, nrow=6)], starting
    from the empty tensor. *)
Definition visualize_errors (ii_worst : list nat) (labels_gt : list Z)
  : list image :=
  fold_left add_mistake (combine ii_worst labels_gt) [].

(** Row [k] of a grid with [nrow] images per row. *)
Definition grid_row (nrow k : nat) (images_tensor : list image) : list image :=
  firstn nrow (skipn (k * nrow) images_tensor).

End Grid.

End Visualize.

(** ** trainer.py: the evaluation as [Trainer.train] calls it *)

Module Pipeline.

(** [labels[ii_worst]]: the entries at the given positions; a position
    beyond the array raises. *)
Fixpoint take (arr : list Z) (ii : list nat) : res (list Z) :=
  match ii with
  | [] => Ok []
  | i :: ii' =>
      match nth_error arr i with
      | None => Raise IndexError
      | Some x => rest <- take arr ii' ;; Ok (x :: rest)
      end
  end.

(** [make_grid(images_tensor, nrow=...)] of torchvision, as far as it can
    raise here: for a tensor without images the number of columns,
    [min(nrow, nmaps)], is 0 and the number of rows is a division by
    it. *)
Definition make_grid {image : Type} (images_tensor : list image) (nrow : nat)
  : res unit :=
  match Nat.min nrow (length images_tensor) with
  | O => Raise ZeroDivisionError
  | S _ => Ok tt
  end.

Section Evaluation.

(** The collaborators of [self.test(n_tta)['accuracy']]: the labels of
    the evaluation set, the classifier's answer for a sample under given
    parameters and number of views, the accuracy the metrics calculator
    derives from the three arrays and the worst mistakes it names, and
    the two image calls of the evaluation set. *)
Variable Params : Type.
Variable label_of : nat -> Z.
Variable classify : Params -> Z -> nat -> Z * Q.
Variable accuracy : Trainer.arrays -> Q.
Variable find_worst_mistakes : Trainer.arrays -> nat -> list nat.
Variable image : Type.
Variable get_signed_image : nat -> image.
Variable get_class_samples : nat -> Z -> list image.
Variable n_samples : nat.
Variable batch_size : Z.

(** [Trainer.test] from the arrays on: the metrics, the worst mistakes,
    their labels, the grid of [visualize_errors], and the accuracy
    returned. *)
Definition test_accuracy (p : Params) (n_tta : Z) : res Q :=
  a <- Trainer.test label_of (classify p n_tta) n_samples batch_size n_tta ;;
  let acc := accuracy a in
  let ii_worst := find_worst_mistakes a 5 in
  labels_gt <- take (Trainer.labels a) ii_worst ;;
  g <- make_grid
         (Visualize.visualize_errors image get_signed_image
            get_class_samples ii_worst labels_gt) 6 ;;
  Ok acc.

End Evaluation.

(** The state in which the loop of a one-epoch run ends, for two samples,
    batch size 1, a classifier that is always right and the accuracy
    counted as 1. *)
Definition exit_state : Trainer.state nat :=
  {| Trainer.params := 1%nat; Trainer.acc_max := 1;
     Trainer.best_epoch := 0%nat;
     Trainer.stopper :=
       {| Stopper.n_observation := 3; Stopper.delta := 0.01;
          Stopper.cur_val := Some 1;
          Stopper.value_max := 1; Stopper.num_fails := 0 |};
     Trainer.epoch_ckpts :=
       [(0%nat, {| Trainer.ck_params := 1%nat; Trainer.ck_acc := 1 |})];
     Trainer.best_ckpt :=
       Some {| Trainer.ck_params := 1%nat; Trainer.ck_acc := 1 |};
     Trainer.trace :=
       [Trainer.EvTrainEpoch 0; Trainer.EvTest 0;
        Trainer.EvSaveEpoch 0 1; Trainer.EvSaveBest 1] |}.

End Pipeline.

(** ** Reading the trace of a run *)

Module Trace.

(** The epochs for which [train_epoch] was called, in the order of the
    calls. *)
Definition trained (tr : list Trainer.event) : list nat :=
  flat_map (fun e => match e with
                     | Trainer.EvTrainEpoch i => [i]
                     | _ => []
                     end) tr.

End Trace.

(** ** A run of the loop used as an instance below *)

Module Runs.

(** The state in which the loop of the end-to-end run of the
    specification ends: three epochs trained and evaluated, the best
    checkpoint written at epoch 1, the break at epoch 2. *)
Definition exit_state : Trainer.state nat :=
  {| Trainer.params := 3%nat; Trainer.acc_max := 0.62;
     Trainer.best_epoch := 1%nat;
     Trainer.stopper :=
       {| Stopper.n_observation := 3; Stopper.delta := 0;
          Stopper.cur_val := Some 0.61;
          Stopper.value_max := 0.62; Stopper.num_fails := 3 |};
     Trainer.epoch_ckpts :=
       [(0%nat, {| Trainer.ck_params := 1%nat; Trainer.ck_acc := 0.60 |});
        (1%nat, {| Trainer.ck_params := 2%nat; Trainer.ck_acc := 0.62 |});
        (2%nat, {| Trainer.ck_params := 3%nat; Trainer.ck_acc := 0.61 |})];
     Trainer.best_ckpt :=
       Some {| Trainer.ck_params := 2%nat; Trainer.ck_acc := 0.62 |};
     Trainer.trace :=
       [Trainer.EvTrainEpoch 0; Trainer.EvTest 0;
        Trainer.EvSaveEpoch 0 0.60; Trainer.EvSaveBest 0.60;
        Trainer.EvTrainEpoch 1; Trainer.EvTest 0;
        Trainer.EvSaveEpoch 1 0.62; Trainer.EvSaveBest 0.62;
        Trainer.EvTrainEpoch 2; Trainer.EvTest 0;
        Trainer.EvSaveEpoch 2 0.61; Trainer.EvStopped 2] |}.

End Runs.

(** * Properties *)

(** ** Comparisons *)

Lemma Qgeb_true (a b : Q) : Qgeb a b = true <-> b <= a.
Proof. unfold Qgeb. apply Qle_bool_iff. Qed.

Lemma Qgeb_false (a b : Q) : Qgeb a b = false <-> a < b.
Proof.
  unfold Qgeb. split; intro H.
  - apply Qnot_le_lt. intro L. apply Qle_bool_iff in L. congruence.
  - destruct (Qle_bool b a) eqn:E; trivial.
    apply Qle_bool_iff in E. exfalso. apply (Qlt_not_le _ _ H E).
Qed.

Lemma Qltb_true (a b : Q) : Qltb a b = true <-> a < b.
Proof.
  unfold Qltb. rewrite negb_true_iff. apply (Qgeb_false a b).
Qed.

Lemma Qltb_false (a b : Q) : Qltb a b = false <-> b <= a.
Proof.
  unfold Qltb. rewrite negb_false_iff. apply Qle_bool_iff.
Qed.

Lemma py_max_lub (a b : Q) : a <= py_max a b /\ b <= py_max a b.
Proof.
  unfold py_max. destruct (Qltb a b) eqn:E.
  - apply Qltb_true in E. split; [apply Qlt_le_weak; exact E | apply Qle_refl].
  - apply Qltb_false in E. split; [apply Qle_refl | exact E].
Qed.

(** ** Stopper *)

(** [update] never raises: it sets [cur_val] before the two helpers read
    it.  The best value is raised first and the failure test reads the
    raised value. *)
Lemma Stopper_update_Ok (s : Stopper.t) (v : Q) :
  Stopper.update s v =
  Ok {| Stopper.n_observation := Stopper.n_observation s;
        Stopper.delta := Stopper.delta s;
        Stopper.cur_val := Some v;
        Stopper.value_max := py_max (Stopper.value_max s) v;
        Stopper.num_fails :=
          if Qgeb (py_max (Stopper.value_max s) v - v) (Stopper.delta s)
          then (Stopper.num_fails s + 1)%Z else 0%Z |}.
Proof.
  unfold Stopper.update, Stopper._update_max, Stopper._count_fails, py_max.
  cbn [Stopper.set_cur_val Stopper.cur_val Stopper.value_max].
  destruct (Qltb (Stopper.value_max s) v); cbn;
    destruct (Qgeb _ _); reflexivity.
Qed.

(** With a positive margin the test against the raised best value and the
    test against the previous best value agree. *)
Lemma Stopper_test_agree (m v d : Q) :
  0 < d -> Qgeb (py_max m v - v) d = Qgeb (m - v) d.
Proof.
  intro Hd. unfold py_max. destruct (Qltb m v) eqn:E; [|reflexivity].
  apply Qltb_true in E.
  assert (H1 : Qgeb (v - v) d = false) by (apply Qgeb_false; lra).
  assert (H2 : Qgeb (m - v) d = false) by (apply Qgeb_false; lra).
  congruence.
Qed.

(** C3: with threshold 3 and margin 0.01 the observations
    0.50, 0.51, 0.50, 0.49, 0.48 make [check_criterion] answer
    false, false, false, false, true; and an observation exactly
    [delta] below the best value is counted as a failure, whatever
    the state. *)
Theorem C3_stop_sequence_boundary_inclusive :
  (exists s',
     (s <- Stopper.__init__ 3 0.01 ;;
      Stopper.feed s [0.50; 0.51; 0.50; 0.49; 0.48])
     = Ok (s', [false; false; false; false; true])) /\
  (forall s : Stopper.t, exists s',
     Stopper.update s (Stopper.value_max s - Stopper.delta s) = Ok s' /\
     Stopper.num_fails s' = (Stopper.num_fails s + 1)%Z).
Proof.
  split.
  - eexists. vm_compute. reflexivity.
  - intro s. rewrite Stopper_update_Ok. eexists. split; [reflexivity|].
    cbn [Stopper.num_fails].
    set (m := Stopper.value_max s). set (d := Stopper.delta s).
    assert (H : Qgeb (py_max m (m - d) - (m - d)) d = true).
    { apply Qgeb_true. unfold py_max.
      destruct (Qltb m (m - d)) eqn:E.
      - apply Qltb_true in E. lra.
      - lra. }
    rewrite H. reflexivity.
Qed.

(** C2, on the program: at margin 0 an observation that sets a new best
    value is counted as a failure.  The first observation 0.6 of a policy
    with threshold 3 and margin 0 exceeds the previous best 0, becomes the
    best value, and leaves the failure count at 1; the specification's
    order of update (test against the previous best, then raise) leaves it
    at 0. *)
Theorem C2_new_best_counted_as_failure_at_margin_0 :
  0 <= Stopper.delta Scenario.stopper_3_0 /\
  Stopper.value_max Scenario.stopper_3_0 < 0.6 /\
  Stopper.update Scenario.stopper_3_0 0.6 =
    Ok {| Stopper.n_observation := 3; Stopper.delta := 0;
          Stopper.cur_val := Some 0.6; Stopper.value_max := 0.6;
          Stopper.num_fails := 1 |} /\
  Stopper.num_fails (Stopper.spec_update Scenario.stopper_3_0 0.6) = 0%Z.
Proof.
  repeat split; try reflexivity; discriminate.
Qed.

(** X26: for every positive margin [update] is the update of the
    specification (test against the previous best, then raise), although
    it raises the best value first and tests the observation against the
    raised value; an observation above the previous best then resets the
    failure count and becomes the best value. *)
Theorem X26_positive_margin_new_best_is_no_failure (s : Stopper.t) (v : Q) :
  0 < Stopper.delta s ->
  exists s',
    Stopper.update s v = Ok s' /\
    Stopper.num_fails s' =
      (if Qgeb (Stopper.value_max s' - v) (Stopper.delta s)
       then (Stopper.num_fails s + 1)%Z else 0%Z) /\
    s' = Stopper.spec_update s v /\
    (Stopper.value_max s < v ->
     Stopper.num_fails s' = 0%Z /\ Stopper.value_max s' = v).
Proof.
  intro Hd. rewrite Stopper_update_Ok. eexists. split; [reflexivity|].
  cbn [Stopper.num_fails Stopper.value_max].
  split; [reflexivity|]. split.
  - unfold Stopper.spec_update. rewrite (Stopper_test_agree _ _ _ Hd).
    reflexivity.
  - intro Hv. rewrite (Stopper_test_agree _ _ _ Hd).
    assert (H : Qgeb (Stopper.value_max s - v) (Stopper.delta s) = false)
      by (apply Qgeb_false; lra).
    rewrite H. split; [reflexivity|].
    unfold py_max. apply Qltb_true in Hv. rewrite Hv. reflexivity.
Qed.

Lemma X26_positive_margin_new_best_is_no_failure_witness :
  exists s',
    Stopper.update Scenario.stopper_3_001 0.5 = Ok s' /\
    Stopper.num_fails s' = 0%Z /\ Stopper.value_max s' = 0.5.
Proof.
  destruct (X26_positive_margin_new_best_is_no_failure
              Scenario.stopper_3_001 0.5)
    as [s' [Hu [_ [_ Hn]]]].
  - reflexivity.
  - exists s'. split; [exact Hu|]. apply Hn. reflexivity.
Defined.

(** C4 as stated fails: the constructor accepts the threshold 0 and
    returns a policy object. *)
Lemma C4_counterexample :
  Stopper.__init__ 0 0.01 =
    Ok {| Stopper.n_observation := 0; Stopper.delta := 0.01;
          Stopper.cur_val := None; Stopper.value_max := 0;
          Stopper.num_fails := 0 |} /\
  forall e, Stopper.__init__ 0 0.01 <> Raise e.
Proof.
  split; [reflexivity | intros e H; discriminate H].
Qed.

(** C4, amended: the constructor checks nothing; for every threshold
    (0 and the negative ones included) and every margin it returns a
    policy with best value 0 and failure count 0, and with threshold 0 the
    criterion of that policy holds before any observation. *)
Theorem C4_constructor_accepts_any_threshold (n_observation : Z) (delta : Q) :
  exists s,
    Stopper.__init__ n_observation delta = Ok s /\
    Stopper.n_observation s = n_observation /\
    Stopper.delta s = delta /\
    Stopper.cur_val s = None /\
    Stopper.value_max s = 0 /\
    Stopper.num_fails s = 0%Z /\
    Stopper.check_criterion s = (n_observation =? 0)%Z.
Proof.
  eexists. split; [reflexivity|].
  cbn [Stopper.n_observation Stopper.delta Stopper.cur_val
       Stopper.value_max Stopper.num_fails].
  repeat (split; [reflexivity|]).
  unfold Stopper.check_criterion. apply Z.eqb_sym.
Qed.

(** C10: the stop signal is not latched.  Once the criterion holds, one
    more observation that fails against the previous best value makes the
    failure count exceed the threshold by one, and the criterion is false
    again. *)
Theorem C10_stop_signal_not_latched (s : Stopper.t) (v : Q) :
  Stopper.check_criterion s = true ->
  Stopper.delta s <= Stopper.value_max s - v ->
  exists s',
    Stopper.update s v = Ok s' /\
    Stopper.num_fails s' = (Stopper.n_observation s + 1)%Z /\
    Stopper.n_observation s' = Stopper.n_observation s /\
    Stopper.check_criterion s' = false.
Proof.
  intros Hc Hf. rewrite Stopper_update_Ok. eexists. split; [reflexivity|].
  unfold Stopper.check_criterion in *.
  cbn [Stopper.num_fails Stopper.n_observation].
  apply Z.eqb_eq in Hc.
  assert (H : Qgeb (py_max (Stopper.value_max s) v - v) (Stopper.delta s)
              = true).
  { apply Qgeb_true. destruct (py_max_lub (Stopper.value_max s) v). lra. }
  rewrite H, Hc. repeat split. apply Z.eqb_neq. lia.
Qed.

Lemma C10_stop_signal_not_latched_witness :
  exists s',
    Stopper.update
      {| Stopper.n_observation := 3; Stopper.delta := 0.01;
         Stopper.cur_val := Some 0.48; Stopper.value_max := 0.51;
         Stopper.num_fails := 3 |} 0.47 = Ok s' /\
    Stopper.num_fails s' = 4%Z /\
    Stopper.n_observation s' = 3%Z /\
    Stopper.check_criterion s' = false.
Proof.
  apply (C10_stop_signal_not_latched
           {| Stopper.n_observation := 3; Stopper.delta := 0.01;
              Stopper.cur_val := Some 0.48; Stopper.value_max := 0.51;
              Stopper.num_fails := 3 |} 0.47).
  - reflexivity.
  - cbn. unfold Qle. cbn. lia.
Defined.

(** ** OnlineAvg *)

(** With exact numbers the sum from the left starts with its first
    term. *)
Lemma OnlineAvg_sum_from (xs : list Q) :
  forall a : Q, fold_left Qplus xs a == a + fold_left Qplus xs 0.
Proof.
  induction xs as [|x xs IH]; intro a; cbn [fold_left].
  - ring.
  - rewrite (IH (a + x)), (IH (0 + x)). ring.
Qed.

Lemma OnlineAvg_sum_cons (x : Q) (xs : list Q) :
  OnlineAvg.sum (x :: xs) == x + OnlineAvg.sum xs.
Proof.
  unfold OnlineAvg.sum. cbn [fold_left num_add num_zero Exact].
  rewrite OnlineAvg_sum_from. ring.
Qed.

(** One [update] on exact numbers from a state with a non-negative
    count: no division by zero, the count grows by one and [avg * n]
    grows by the observation. *)
Lemma OnlineAvg_update_step (s : OnlineAvg.t Q) (x : Q) :
  (0 <= OnlineAvg.n s)%Z ->
  exists s',
    OnlineAvg.update s x = Ok s' /\
    OnlineAvg.n s' = (OnlineAvg.n s + 1)%Z /\
    OnlineAvg.avg s' * inject_Z (OnlineAvg.n s')
      == OnlineAvg.avg s * inject_Z (OnlineAvg.n s) + x.
Proof.
  intro Hn. unfold OnlineAvg.update.
  cbn [num_of_int num_add num_mul num_div Exact bind].
  assert (Hz : ~ inject_Z (OnlineAvg.n s + 1) == 0).
  { intro H. unfold Qeq in H. cbn in H. lia. }
  destruct (Qeq_bool (inject_Z (OnlineAvg.n s + 1)) 0) eqn:E.
  - apply Qeq_bool_iff in E. contradiction.
  - eexists. split; [reflexivity|]. cbn [OnlineAvg.n OnlineAvg.avg].
    split; [reflexivity|].
    rewrite Z.add_simpl_r. field. exact Hz.
Qed.

Lemma OnlineAvg_feed_sum (xs : list Q) :
  forall s : OnlineAvg.t Q,
    (0 <= OnlineAvg.n s)%Z ->
    exists s',
      OnlineAvg.feed s xs = Ok s' /\
      OnlineAvg.n s' = (OnlineAvg.n s + Z.of_nat (length xs))%Z /\
      OnlineAvg.avg s' * inject_Z (OnlineAvg.n s')
        == OnlineAvg.avg s * inject_Z (OnlineAvg.n s) + OnlineAvg.sum xs.
Proof.
  induction xs as [|x xs IH]; intros s Hn.
  - exists s. cbn [OnlineAvg.feed length].
    split; [reflexivity|]. split; [lia|].
    unfold OnlineAvg.sum. cbn [fold_left num_zero Exact]. ring.
  - destruct (OnlineAvg_update_step s x Hn) as [s1 [Hu [Hn1 Ha1]]].
    destruct (IH s1) as [s' [Hf [Hn' Ha']]]; [lia|].
    exists s'. cbn [OnlineAvg.feed]. rewrite Hu. cbn [bind].
    split; [exact Hf|]. split.
    + rewrite Hn', Hn1. cbn [length]. lia.
    + rewrite Ha', Ha1, OnlineAvg_sum_cons. ring.
Qed.



(** ** Python's true division of integers *)

Local Open Scope Z_scope.

(** The exponent chosen puts the scaled quotient at or above [2^52]. *)
Lemma rne_exponent_lower (a b : Z) :
  0 < a -> 0 < b ->
  2 ^ 52 * scaled_den b (rne_exponent a b) <= scaled_num a (rne_exponent a b).
Proof.
  intros Ha Hb. unfold rne_exponent. cbv zeta.
  set (e0 := Z.log2 a - Z.log2 b - 52).
  destruct (2 ^ 52 * scaled_den b e0 <=? scaled_num a e0) eqn:E.
  - apply Z.leb_le. exact E.
  - clear E.
    destruct (Z.log2_spec a Ha) as [Ha1 _].
    destruct (Z.log2_spec b Hb) as [_ Hb2].
    pose proof (Z.log2_nonneg a) as Hla. pose proof (Z.log2_nonneg b) as Hlb.
    set (la := Z.log2 a) in *. set (lb := Z.log2 b) in *.
    set (c := 2 ^ 52). assert (Hc : 0 < c) by (unfold c; lia).
    unfold scaled_den, scaled_num.
    destruct (0 <=? e0 - 1) eqn:Es.
    + apply Z.leb_le in Es.
      assert (Hp : c * 2 ^ Z.succ lb * 2 ^ (e0 - 1) = 2 ^ la).
      { unfold c. rewrite <- !Z.pow_add_r by lia. f_equal. unfold e0. lia. }
      assert (Hx : 0 < 2 ^ (e0 - 1)) by (apply Z.pow_pos_nonneg; lia).
      nia.
    + apply Z.leb_gt in Es.
      assert (Hp : 2 ^ la * 2 ^ (- (e0 - 1)) = c * 2 ^ Z.succ lb).
      { unfold c. rewrite <- !Z.pow_add_r by lia. f_equal. unfold e0. lia. }
      assert (Hx : 0 < 2 ^ (- (e0 - 1))) by (apply Z.pow_pos_nonneg; lia).
      nia.
Qed.

(** Below [2^53] the dividend is a binary64 number and so is every
    quotient's integer part: [int(a / b)] is the floor of the quotient. *)
Lemma py_int_true_div_floor (a b : Z) :
  0 <= a < 2 ^ 53 -> 0 < b -> py_int_true_div a b = Ok (a / b).
Proof.
  intros Ha Hb. unfold py_int_true_div.
  replace (b =? 0) with false by (symmetry; apply Z.eqb_neq; lia).
  destruct (a =? 0) eqn:Ea.
  - apply Z.eqb_eq in Ea. subst a. rewrite Z.div_0_l by lia. reflexivity.
  - apply Z.eqb_neq in Ea. assert (Ha' : 0 < a) by lia.
    rewrite (Z.abs_eq a), (Z.abs_eq b) by lia.
    rewrite (Z.sgn_pos a), (Z.sgn_pos b) by lia.
    pose proof (rne_exponent_lower a b Ha' Hb) as HL.
    set (e := rne_exponent a b) in *. cbv zeta.
    unfold rne_mantissa. cbv zeta.
    assert (H53 : 2 ^ 53 = 2 * 2 ^ 52) by reflexivity.
    set (c := 2 ^ 52) in *. assert (Hc : 0 < c) by (unfold c; lia).
    destruct (0 <=? e) eqn:Ee.
    + apply Z.leb_le in Ee.
      unfold scaled_num, scaled_den in *.
      replace (0 <=? e) with true in * by (symmetry; apply Z.leb_le; exact Ee).
      assert (Hx : 0 < 2 ^ e) by (apply Z.pow_pos_nonneg; lia).
      set (X := 2 ^ e) in *.
      assert (Hbx : b * X < 2).
      { apply (Z.mul_lt_mono_pos_l c); [exact Hc|]. lia. }
      assert (Hb1 : b = 1) by (clear - Hb Hx Hbx; nia).
      assert (Hx1 : X = 1) by (clear - Hb1 Hx Hbx; nia).
      rewrite Hx1, Hb1. rewrite !Z.mul_1_r, !Z.div_1_r, Z.mod_1_r.
      change ((1 <? 2 * 0) || (1 =? 2 * 0) && Z.odd a) with false.
      cbv iota. rewrite ?Z.mul_1_l.
      destruct (2 ^ 1024 <=? a) eqn:Eo; [|reflexivity].
      apply Z.leb_le in Eo.
      assert (2 ^ 53 < 2 ^ 1024) by (apply Z.pow_lt_mono_r; lia). lia.
    + apply Z.leb_gt in Ee.
      unfold scaled_num, scaled_den in *.
      replace (0 <=? e) with false in * by (symmetry; apply Z.leb_gt; exact Ee).
      set (P := 2 ^ (- e)) in *.
      assert (HP : 0 < P) by (apply Z.pow_pos_nonneg; lia).
      pose proof (Z.div_mod (a * P) b ltac:(lia)) as Hdm.
      pose proof (Z.mod_pos_bound (a * P) b Hb) as Hr.
      pose proof (Z.div_mod a b ltac:(lia)) as Hdm0.
      pose proof (Z.mod_pos_bound a b Hb) as Hr0.
      set (q := a * P / b) in *. set (r := (a * P) mod b) in *.
      set (k := a / b) in *. set (r0 := a mod b) in *.
      assert (Hk0 : 0 <= k) by (apply Z.div_pos; lia).
      assert (Hq1 : k * P <= q) by nia.
      assert (Hq2 : q < (k + 1) * P) by nia.
      apply f_equal. change (1 * 1) with 1. rewrite Z.mul_1_l.
      destruct ((b <? 2 * r) || (b =? 2 * r) && Z.odd q) eqn:Eround.
      * assert (Hup : b <= 2 * r).
        { apply orb_true_iff in Eround. destruct Eround as [H|H].
          - apply Z.ltb_lt in H. lia.
          - apply andb_true_iff in H. destruct H as [H _].
            apply Z.eqb_eq in H. lia. }
        assert (Hq3 : q + 1 < (k + 1) * P).
        { destruct (Z.lt_ge_cases (q + 1) ((k + 1) * P)) as [Hlt|Hge]; [exact Hlt|].
          exfalso.
          assert (Hq : q = (k + 1) * P - 1) by lia.
          assert (Hr1 : r = b - (b - r0) * P) by nia.
          assert (Hb2 : 2 * P <= b) by nia.
          nia. }
        symmetry. apply (Z.div_unique _ _ _ (q + 1 - k * P)); lia.
      * symmetry. apply (Z.div_unique _ _ _ (q - k * P)); lia.
Qed.

Local Close Scope Z_scope.

(** The floor of a quotient is the quotient itself exactly when the
    divisor divides the dividend. *)
Lemma floor_exact_iff (a b : Z) :
  (0 < b)%Z ->
  inject_Z (a / b) == inject_Z a / inject_Z b <-> (a mod b = 0)%Z.
Proof.
  intro Hn.
  assert (Hz : ~ inject_Z b == 0).
  { intro H. unfold Qeq in H. cbn in H. lia. }
  split; intro H.
  - assert (H' : inject_Z (a / b) * inject_Z b == inject_Z a).
    { rewrite H. field. exact Hz. }
    rewrite <- inject_Z_mult in H'.
    unfold Qeq, inject_Z in H'. cbn [Qnum Qden] in H'.
    rewrite !Z.mul_1_r in H'.
    apply Z.div_exact; [lia|]. rewrite Z.mul_comm. symmetry. exact H'.
  - apply (Qmult_inj_r _ _ _ Hz).
    rewrite <- inject_Z_mult.
    replace (a / b * b)%Z with a
      by (rewrite Z.mul_comm; apply Z.div_exact; [lia | exact H]).
    field. exact Hz.
Qed.

(** ** Trainer.test: batches and offsets *)

Section Batches.

Variable batch_size : nat.
Hypothesis batch_size_pos : (0 < batch_size)%nat.

(** Indices that complete the pending batch are yielded with it. *)
Lemma batch_sampler_fill (rest : list nat) :
  forall (l batch : list nat),
    l <> [] ->
    (length batch + length l = batch_size)%nat ->
    Trainer.batch_sampler batch_size batch (l ++ rest) =
    (batch ++ l) :: Trainer.batch_sampler batch_size [] rest.
Proof.
  induction l as [|x l IH]; intros batch Hne Hlen; [congruence|].
  cbn [app Trainer.batch_sampler]. cbn [length] in Hlen.
  rewrite length_app. cbn [length].
  destruct l as [|y l'].
  - cbn [length] in Hlen.
    replace (length batch + 1 =? batch_size)%nat with true
      by (symmetry; apply Nat.eqb_eq; lia).
    reflexivity.
  - cbn [length] in Hlen.
    replace (length batch + 1 =? batch_size)%nat with false
      by (symmetry; apply Nat.eqb_neq; lia).
    rewrite IH.
    + rewrite <- app_assoc. reflexivity.
    + discriminate.
    + rewrite length_app. cbn [length]. lia.
Qed.

(** Indices that do not fill a batch are yielded as the last, short
    batch. *)
Lemma batch_sampler_short :
  forall (l batch : list nat),
    (length batch + length l < batch_size)%nat ->
    Trainer.batch_sampler batch_size batch l =
    match batch ++ l with [] => [] | _ :: _ => [batch ++ l] end.
Proof.
  induction l as [|x l IH]; intros batch Hlen.
  - cbn [Trainer.batch_sampler]. rewrite app_nil_r. reflexivity.
  - cbn [Trainer.batch_sampler]. cbn [length] in Hlen.
    rewrite length_app. cbn [length].
    replace (length batch + 1 =? batch_size)%nat with false
      by (symmetry; apply Nat.eqb_neq; lia).
    rewrite IH by (rewrite length_app; cbn [length]; lia).
    rewrite <- app_assoc. reflexivity.
Qed.

(** The batches of [m] consecutive indices from [k]: none when [m = 0],
    otherwise the next [min batch_size m] indices and the batches of
    what is left. *)
Lemma batch_sampler_seq (k m : nat) :
  Trainer.batch_sampler batch_size [] (seq k m) =
  match m with
  | O => []
  | S _ =>
      let c := Nat.min batch_size m in
      seq k c :: Trainer.batch_sampler batch_size [] (seq (k + c) (m - c))
  end.
Proof.
  destruct m as [|m']; [reflexivity|]. cbv zeta.
  set (m := S m') in *.
  destruct (Nat.le_gt_cases batch_size m) as [Hle|Hgt].
  - rewrite (Nat.min_l _ _ Hle).
    replace (seq k m) with (seq k batch_size ++ seq (k + batch_size) (m - batch_size)).
    + rewrite batch_sampler_fill.
      * reflexivity.
      * destruct batch_size; [lia | discriminate].
      * cbn [length]. rewrite length_seq. reflexivity.
    + rewrite <- seq_app. f_equal. lia.
  - rewrite (Nat.min_r batch_size m) by lia.
    rewrite Nat.sub_diag. cbn [seq Trainer.batch_sampler].
    rewrite batch_sampler_short by (cbn [length]; rewrite length_seq; lia).
    reflexivity.
Qed.

End Batches.

(** Writing [vals] over the middle part of an array whose slice has the
    length of [vals]: no error, and only the slice changes. *)
Lemma assign_slice_middle {A : Type} (pre old post vals : list A) (lo hi : nat) :
  length pre = lo ->
  (lo + length old = hi)%nat ->
  length vals = length old ->
  Trainer.assign_slice (pre ++ old ++ post) lo hi vals
  = Ok (pre ++ vals ++ post).
Proof.
  intros Hpre Hold Hvals. unfold Trainer.assign_slice.
  rewrite !length_app.
  rewrite (Nat.min_l lo) by lia.
  rewrite (Nat.min_l hi) by lia.
  rewrite (Nat.max_r lo hi) by lia.
  replace (length vals =? hi - lo)%nat with true
    by (symmetry; apply Nat.eqb_eq; lia).
  f_equal. f_equal.
  - rewrite firstn_app. rewrite Hpre, Nat.sub_diag. cbn [firstn].
    rewrite app_nil_r. rewrite <- Hpre. apply firstn_all.
  - f_equal. rewrite app_assoc. rewrite skipn_app.
    rewrite length_app.
    replace (hi - (length pre + length old))%nat with 0%nat by lia.
    cbn [skipn]. rewrite skipn_all2 by (rewrite length_app; lia).
    reflexivity.
Qed.

Section Offsets.

Variable label_of : nat -> Z.
Variable classify : nat -> Z * Q.
Variable batch_size : nat.
Hypothesis batch_size_pos : (0 < batch_size)%nat.

Local Abbreviation filled := (Trainer.filled label_of classify).

Lemma filled_app {A : Type} (f : nat -> A) (z : A) (k c m : nat) :
  (c <= m)%nat ->
  map f (seq 0 k) ++ repeat z m
  = map f (seq 0 k) ++ repeat z c ++ repeat z (m - c) /\
  map f (seq 0 (k + c)) ++ repeat z (m - c)
  = map f (seq 0 k) ++ map f (seq k c) ++ repeat z (m - c).
Proof.
  intro Hc. split.
  - rewrite <- repeat_app. do 2 f_equal. lia.
  - rewrite seq_app, map_app, <- app_assoc. reflexivity.
Qed.

(** One turn of the loop on batch [i], when the positions below
    [i * batch_size] are written and [m > 0] samples remain. *)
Lemma step_filled (i m : nat) :
  (0 < m)%nat ->
  let c := Nat.min batch_size m in
  Trainer.step label_of classify (i * batch_size + m) batch_size
    (filled (i * batch_size) m) i (seq (i * batch_size) c)
  = Ok (filled (i * batch_size + c) (m - c)).
Proof.
  intros Hm c. assert (Hc : (c <= m)%nat) by apply Nat.le_min_r.
  unfold Trainer.step, Trainer.filled, Trainer.i_stop, Trainer.i_start.
  cbn [Trainer.labels Trainer.preds Trainer.confs].
  set (k := (i * batch_size)%nat).
  replace (Nat.min (k + batch_size) (k + m)) with (k + c)%nat
    by (unfold c; lia).
  rewrite (proj1 (filled_app label_of 0%Z k c m Hc)).
  rewrite (proj1 (filled_app (fun idx => fst (classify idx)) 0%Z k c m Hc)).
  rewrite (proj1 (filled_app (fun idx => snd (classify idx)) 0 k c m Hc)).
  rewrite !assign_slice_middle;
    rewrite ?length_map, ?length_seq, ?repeat_length; try reflexivity.
  cbn [bind].
  rewrite (proj2 (filled_app label_of 0%Z k c m Hc)).
  rewrite (proj2 (filled_app (fun idx => fst (classify idx)) 0%Z k c m Hc)).
  rewrite (proj2 (filled_app (fun idx => snd (classify idx)) 0 k c m Hc)).
  reflexivity.
Qed.

(** The loop from batch [i] on, over the batches of the [m] samples that
    remain, writes every remaining position. *)
Lemma loop_filled (m : nat) :
  forall i : nat,
    let batches :=
      Trainer.batch_sampler batch_size [] (seq (i * batch_size) m) in
    Trainer.loop label_of classify (i * batch_size + m) batch_size
      (filled (i * batch_size) m)
      (combine (seq i (length batches)) batches)
    = Ok (filled (i * batch_size + m) 0).
Proof.
  induction m as [m IH] using lt_wf_ind. intros i batches.
  unfold batches. rewrite batch_sampler_seq by exact batch_size_pos.
  destruct m as [|m']; [cbn; rewrite Nat.add_0_r; reflexivity|].
  cbv zeta. set (m := S m') in *.
  set (c := Nat.min batch_size m).
  assert (Hc : (0 < c <= m)%nat) by (unfold c, m; lia).
  cbn [length seq combine Trainer.loop].
  pose proof (step_filled i m ltac:(lia)) as Hstep. cbv zeta in Hstep.
  fold c in Hstep. rewrite Hstep. cbn [bind].
  destruct (Nat.eq_dec c batch_size) as [Hfull|Hshort].
  - replace (i * batch_size + c)%nat with (S i * batch_size)%nat
      by (cbn [Nat.mul]; lia).
    replace (i * batch_size + m)%nat with (S i * batch_size + (m - c))%nat
      by (cbn [Nat.mul]; lia).
    apply (IH (m - c)%nat); lia.
  - assert (Hcm : c = m) by (unfold c in *; lia).
    rewrite Hcm, Nat.sub_diag. cbn [seq Trainer.batch_sampler length combine].
    destruct (seq (S i) 0); reflexivity.
Qed.

(** The ranges written from batch [i] on tile the remaining indices, and
    each batch holds the samples of its range. *)
Lemma slices_tile (m : nat) :
  forall i : nat,
    let n_samples := (i * batch_size + m)%nat in
    let batches :=
      Trainer.batch_sampler batch_size [] (seq (i * batch_size) m) in
    let ranges :=
      map (fun b : nat * list nat =>
             (Trainer.i_start (fst b) batch_size,
              Trainer.i_stop (fst b) batch_size n_samples))
          (combine (seq i (length batches)) batches) in
    Trainer.tiles (i * batch_size) ranges n_samples /\
    Forall2 (fun r data => data = seq (fst r) (snd r - fst r))
            ranges batches.
Proof.
  induction m as [m IH] using lt_wf_ind. intros i n_samples batches ranges.
  unfold ranges, batches, n_samples.
  rewrite batch_sampler_seq by exact batch_size_pos.
  destruct m as [|m']; [cbn; split; [lia | constructor]|].
  cbv zeta. set (m := S m') in *.
  set (c := Nat.min batch_size m).
  assert (Hc : (0 < c <= m)%nat) by (unfold c, m; lia).
  cbn [length seq combine map fst Trainer.tiles].
  change (Trainer.i_start i batch_size) with (i * batch_size)%nat.
  assert (Hstop : Trainer.i_stop i batch_size (i * batch_size + m)
                  = (i * batch_size + c)%nat)
    by (unfold Trainer.i_stop, Trainer.i_start, c; lia).
  rewrite !Hstop.
  destruct (Nat.eq_dec c batch_size) as [Hfull|Hshort].
  - specialize (IH (m - c)%nat ltac:(lia) (S i)). cbv zeta in IH.
    replace (S i * batch_size)%nat with (i * batch_size + c)%nat in IH
      by (cbn [Nat.mul]; lia).
    replace (i * batch_size + c + (m - c))%nat
      with (i * batch_size + m)%nat in IH by lia.
    destruct IH as [IHt IHf].
    split.
    + repeat split; try lia. exact IHt.
    + constructor; [|exact IHf].
      cbn [fst snd]. f_equal. lia.
  - assert (Hcm : c = m) by (unfold c in *; lia).
    rewrite Hcm, Nat.sub_diag.
    cbn [seq Trainer.batch_sampler length combine map Trainer.tiles].
    split.
    + repeat split; lia.
    + constructor; [|constructor]. cbn [fst snd]. f_equal. lia.
Qed.

End Offsets.

(** C8: with a positive loader batch size, [Trainer.test] ends without an
    error and position [k] of each array holds the result of sample [k],
    for every number of samples; batch [b] writes the range from
    [b * batch_size] to [min(b * batch_size + batch_size, n_samples)],
    these ranges tile the indices [0 .. n_samples-1] (no gap, no overlap,
    none beyond the array) and each batch holds exactly the samples of its
    range; for 257 samples and batch size 256 the ranges are 0..255 and
    256 alone. *)
Theorem C8_offsets_cover_every_index
  (label_of : nat -> Z) (classify : nat -> Z * Q)
  (n_samples : nat) (batch_size n_tta : Z)
  (mode : Trainer.transforms) (b : Z) :
  Trainer.setup batch_size n_tta = Ok (mode, b) ->
  (0 < b)%Z ->
  let bs := Z.to_nat b in
  Trainer.test label_of classify n_samples batch_size n_tta
  = Ok {| Trainer.labels := map label_of (seq 0 n_samples);
          Trainer.preds := map (fun idx => fst (classify idx)) (seq 0 n_samples);
          Trainer.confs := map (fun idx => snd (classify idx)) (seq 0 n_samples) |}
  /\ Trainer.tiles 0 (Trainer.slices n_samples bs) n_samples
  /\ Forall2 (fun r data => data = seq (fst r) (snd r - fst r))
       (Trainer.slices n_samples bs)
       (Trainer.batch_sampler bs [] (seq 0 n_samples))
  /\ Trainer.slices 257 256 = [(0, 256); (256, 257)]%nat.
Proof.
  intros Hs Hpos bs.
  assert (Hbs : (0 < bs)%nat) by (unfold bs; lia).
  split; [|split; [|split]].
  - unfold Trainer.test, Trainer.DataLoader. rewrite Hs. cbn [bind snd].
    replace (b <=? 0)%Z with false by (symmetry; apply Z.leb_gt; exact Hpos).
    cbn [bind]. fold bs. unfold Trainer.enumerate.
    pose proof (loop_filled label_of classify bs Hbs n_samples 0) as H.
    cbv zeta in H. cbn [Nat.mul Nat.add] in H.
    change (Trainer.zeros n_samples)
      with (Trainer.filled label_of classify 0 n_samples).
    rewrite H. unfold Trainer.filled. cbn [repeat].
    rewrite !app_nil_r. reflexivity.
  - exact (proj1 (slices_tile bs Hbs n_samples 0)).
  - exact (proj2 (slices_tile bs Hbs n_samples 0)).
  - vm_compute. reflexivity.
Qed.

Lemma C8_offsets_cover_every_index_witness :
  Trainer.test (fun k => Z.of_nat k) (fun k => (Z.of_nat k, 1)) 5 2 0
  = Ok {| Trainer.labels := [0; 1; 2; 3; 4]%Z;
          Trainer.preds := [0; 1; 2; 3; 4]%Z;
          Trainer.confs := [1; 1; 1; 1; 1] |}.
Proof.
  apply (C8_offsets_cover_every_index
           (fun k => Z.of_nat k) (fun k => (Z.of_nat k, 1)) 5 2 0
           Trainer.DefaultTransforms 2).
  - reflexivity.
  - reflexivity.
Defined.

(** C9 as stated fails when [n_tta] does not divide the batch size: for
    batch size 256 and 3 views the loader's batch size is 85, which is not
    256 / 3. *)
Lemma C9_counterexample :
  Trainer.setup 256 3 = Ok (Trainer.TestTransforms 3, 85%Z) /\
  ~ inject_Z 85 == inject_Z 256 / inject_Z 3.
Proof.
  split; [vm_compute; reflexivity|]. vm_compute. discriminate.
Qed.

(** C9, amended: for a positive [n_tta] and a positive batch size below
    [2^53] the evaluation set is put in the augmented mode and the
    loader's batch size is [int(batch_size / n_tta)], the floor of the
    quotient; it is the exact quotient if and only if [n_tta] divides the
    batch size; it is at least 1 when [n_tta] is at most the batch size,
    and it is 0 when [n_tta] exceeds the batch size, which the loader
    refuses, so [Trainer.test] raises.  From [2^53] on the quotient is
    rounded to a float before [int]: [2^53 + 1] over 1 gives [2^53]. *)
Theorem C9_tta_batch_size_is_floor (batch_size n_tta : Z) :
  (0 < batch_size < 2 ^ 53)%Z -> (0 < n_tta)%Z ->
  Trainer.setup batch_size n_tta
  = Ok (Trainer.TestTransforms n_tta, (batch_size / n_tta)%Z) /\
  (inject_Z (batch_size / n_tta) == inject_Z batch_size / inject_Z n_tta
   <-> (batch_size mod n_tta = 0)%Z) /\
  ((n_tta <= batch_size)%Z -> (1 <= batch_size / n_tta)%Z) /\
  ((batch_size < n_tta)%Z ->
   forall (label_of : nat -> Z) (classify : nat -> Z * Q) (n_samples : nat),
     Trainer.test label_of classify n_samples batch_size n_tta
     = Raise ValueError) /\
  Trainer.setup (2 ^ 53 + 1) 1 = Ok (Trainer.TestTransforms 1, (2 ^ 53)%Z).
Proof.
  intros Hb Hn.
  assert (Hs : Trainer.setup batch_size n_tta
               = Ok (Trainer.TestTransforms n_tta, (batch_size / n_tta)%Z)).
  { unfold Trainer.setup.
    replace (n_tta =? 0)%Z with false by (symmetry; apply Z.eqb_neq; lia).
    cbn [negb]. rewrite py_int_true_div_floor by lia. reflexivity. }
  split; [exact Hs|].
  split; [apply floor_exact_iff; exact Hn|].
  split; [|split].
  - intro Hle. apply Z.div_le_lower_bound; lia.
  - intros Hlt label_of classify n_samples.
    unfold Trainer.test. rewrite Hs. cbn [bind snd].
    rewrite Z.div_small by lia. reflexivity.
  - vm_compute. reflexivity.
Qed.

Lemma C9_tta_batch_size_is_floor_witness :
  Trainer.setup 256 8 = Ok (Trainer.TestTransforms 8, 32%Z) /\
  Trainer.setup 2 3 = Ok (Trainer.TestTransforms 3, 0%Z) /\
  Trainer.test (fun k => Z.of_nat k) (fun k => (Z.of_nat k, 1)) 5 2 3
  = Raise ValueError.
Proof.
  split; [|split].
  - apply (C9_tta_batch_size_is_floor 256 8); lia.
  - apply (C9_tta_batch_size_is_floor 2 3); lia.
  - apply (C9_tta_batch_size_is_floor 2 3); lia.
Defined.

(** ** Trainer.train: the best checkpoint *)

Section BestCheckpoint.

Variable Params : Type.
Variable train_epoch : Params -> res Params.
Variable test_accuracy : Params -> Z -> res Q.
Variable test_freq : Z.

Lemma best_inv_start (p : Params) (s : Stopper.t) :
  Trainer.best_inv Params (Trainer.start Params p s [] None).
Proof.
  split; [intros i c []|reflexivity].
Qed.

(** The invariant reads only [acc_max] and the checkpoint directory. *)
Lemma best_inv_ext (st st' : Trainer.state Params) :
  Trainer.acc_max st' = Trainer.acc_max st ->
  Trainer.epoch_ckpts st' = Trainer.epoch_ckpts st ->
  Trainer.best_ckpt st' = Trainer.best_ckpt st ->
  Trainer.best_inv Params st -> Trainer.best_inv Params st'.
Proof.
  unfold Trainer.best_inv. intros -> -> ->. trivial.
Qed.

(** The two saves of an evaluated epoch keep the invariant. *)
Lemma best_inv_save (i : nat) (acc : Q) (st : Trainer.state Params) :
  Trainer.best_inv Params st ->
  Trainer.best_inv Params
    (if Qltb (Trainer.acc_max (Trainer.save_epoch Params i acc st)) acc
     then Trainer.save_best Params i acc (Trainer.save_epoch Params i acc st)
     else Trainer.save_epoch Params i acc st).
Proof.
  intros [Hle Hbest].
  change (Trainer.acc_max (Trainer.save_epoch Params i acc st))
    with (Trainer.acc_max st).
  destruct (Qltb (Trainer.acc_max st) acc) eqn:E; unfold Trainer.best_inv;
    cbn [Trainer.acc_max Trainer.epoch_ckpts Trainer.best_ckpt
         Trainer.save_best Trainer.save_epoch Trainer.log].
  - apply Qltb_true in E. split.
    + intros j c Hin. apply in_app_or in Hin.
      destruct Hin as [Hin|[Hin|[]]].
      * specialize (Hle j c Hin). lra.
      * injection Hin as _ <-. cbn [Trainer.ck_acc]. apply Qle_refl.
    + split; [reflexivity|].
      exists i. apply in_or_app. right. left. reflexivity.
  - apply Qltb_false in E. split.
    + intros j c Hin. apply in_app_or in Hin.
      destruct Hin as [Hin|[Hin|[]]].
      * exact (Hle j c Hin).
      * injection Hin as _ <-. exact E.
    + destruct (Trainer.best_ckpt st) as [b|].
      * destruct Hbest as [Hb [j Hj]]. split; [exact Hb|].
        exists j. apply in_or_app. left. exact Hj.
      * exact Hbest.
Qed.

Lemma best_inv_epoch (i : nat) (st st' : Trainer.state Params) (b : bool) :
  Trainer.epoch Params train_epoch test_accuracy test_freq i st
    = Ok (st', b) ->
  Trainer.best_inv Params st -> Trainer.best_inv Params st'.
Proof.
  unfold Trainer.epoch. intros H Hinv.
  destruct (train_epoch (Trainer.params st)) as [p|e]; [|discriminate].
  cbn [bind] in H.
  destruct (test_freq =? 0)%Z; [discriminate|].
  remember (Trainer.log Params (Trainer.EvTrainEpoch i)
              (Trainer.set_params Params p st))
    as st1 eqn:Hst1.
  assert (Hinv1 : Trainer.best_inv Params st1)
    by (subst st1; apply (best_inv_ext st); trivial).
  destruct (Z.of_nat i mod test_freq =? 0)%Z.
  2:{ injection H as <- _. exact Hinv1. }
  destruct (test_accuracy (Trainer.params st1) 0%Z) as [acc|e];
    [|discriminate].
  cbn [bind] in H. rewrite Stopper_update_Ok in H. cbn [bind] in H.
  assert (Hinv2 : Trainer.best_inv Params
                    (Trainer.log Params (Trainer.EvTest 0) st1))
    by (apply (best_inv_ext st1); trivial).
  pose proof (best_inv_save i acc _ Hinv2) as Hsave.
  destruct (Stopper.check_criterion _) in H; injection H as <- _;
    apply (best_inv_ext _ _ eq_refl eq_refl eq_refl Hsave).
Qed.

Lemma best_inv_epochs (range : list nat) :
  forall st st' : Trainer.state Params,
    Trainer.epochs Params train_epoch test_accuracy test_freq range st
      = Ok st' ->
    Trainer.best_inv Params st -> Trainer.best_inv Params st'.
Proof.
  induction range as [|i range IH]; intros st st' H Hinv.
  - injection H as <-. exact Hinv.
  - cbn [Trainer.epochs] in H.
    destruct (Trainer.epoch Params train_epoch test_accuracy test_freq i st)
      as [[st1 b]|e] eqn:E; [|discriminate].
    cbn [bind fst snd] in H.
    pose proof (best_inv_epoch _ _ _ _ E Hinv) as Hinv1.
    destruct b.
    + injection H as <-. exact Hinv1.
    + exact (IH _ _ H Hinv1).
Qed.

End BestCheckpoint.


(** ** Trainer.train: the end of the run *)

(** C6 as stated fails in two ways that are the program's design.  A
    loop that ends by reaching [n_max_epoch] without an evaluated epoch
    (here [n_max_epoch = 0]) has written no best checkpoint, and [train]
    stops at the reload without returning.  With [n_tta = 0] the one
    evaluation pass after the reload runs on the default transforms, not
    on the augmented ones. *)
Lemma C6_counterexample :
  Trainer.epochs nat Scenario.train_epoch (Scenario.test_accuracy 0.63) 1
    (seq 0 (Z.to_nat 0))
    (Trainer.start nat 0%nat Scenario.stopper_3_0 [] None)
  = Ok (Trainer.start nat 0%nat Scenario.stopper_3_0 [] None) /\
  Trainer.train nat Scenario.train_epoch (Scenario.test_accuracy 0.63) 1 0 8
    Scenario.stopper_3_0 0%nat [] None
  = Raise FileNotFoundError /\
  (exists st,
     Trainer.train nat Scenario.train_epoch (Scenario.test_accuracy 0.63)
       1 5 0 Scenario.stopper_3_0 0%nat [] None
     = Ok (0.62, st) /\
     last (Trainer.trace st) Trainer.EvLoadBest = Trainer.EvTest 0 /\
     Trainer.setup 256 0 = Ok (Trainer.DefaultTransforms, 256%Z)).
Proof.
  split; [reflexivity|]. split; [reflexivity|].
  eexists. split; [vm_compute; reflexivity|].
  split; reflexivity.
Qed.

(** C6, amended: when the loop has ended (by [break] or at the end of the
    range) and the best checkpoint is there, [train] loads the best
    checkpoint, calls [test(n_tta)] exactly once, in the augmented mode
    exactly when [n_tta] is not zero, and returns the larger of [acc_max]
    and the accuracy of that call.  In a run that started in an empty
    checkpoint directory [acc_max] is the metric stored in the best
    checkpoint and no evaluated epoch has a larger one. *)
Theorem C6_train_reloads_best_and_returns_max
  (Params : Type) (train_epoch : Params -> res Params)
  (test_accuracy : Params -> Z -> res Q)
  (test_freq n_max_epoch n_tta : Z) (p0 : Params) (s0 : Stopper.t)
  (st : Trainer.state Params) (c : Trainer.ckpt Params) (m_tta : Q) :
  let st0 := Trainer.start Params p0 s0 [] None in
  Trainer.epochs Params train_epoch test_accuracy test_freq
    (seq 0 (Z.to_nat n_max_epoch)) st0 = Ok st ->
  Trainer.best_ckpt st = Some c ->
  test_accuracy (Trainer.ck_params c) n_tta = Ok m_tta ->
  exists st',
    Trainer.train Params train_epoch test_accuracy test_freq
      n_max_epoch n_tta s0 p0 [] None
    = Ok (py_max (Trainer.acc_max st) m_tta, st') /\
    Trainer.trace st' = Trainer.trace st ++ [Trainer.EvLoadBest; Trainer.EvTest n_tta] /\
    Trainer.params st' = Trainer.ck_params c /\
    (forall (batch_size : Z) (mode : Trainer.transforms) (b : Z),
       Trainer.setup batch_size n_tta = Ok (mode, b) ->
       mode = if (n_tta =? 0)%Z then Trainer.DefaultTransforms
              else Trainer.TestTransforms n_tta) /\
    Trainer.acc_max st = Trainer.ck_acc c /\
    (forall i c', In (i, c') (Trainer.epoch_ckpts st) ->
                  Trainer.ck_acc c' <= Trainer.acc_max st) /\
    Trainer.acc_max st <= py_max (Trainer.acc_max st) m_tta /\
    m_tta <= py_max (Trainer.acc_max st) m_tta.
Proof.
  intros st0 Hloop Hbest Htta.
  pose proof (best_inv_epochs Params train_epoch test_accuracy test_freq
                _ _ _ Hloop (best_inv_start Params p0 s0)) as [Hle Hb].
  rewrite Hbest in Hb. destruct Hb as [Hacc _].
  unfold Trainer.train. fold st0. rewrite Hloop. cbn [bind].
  unfold Trainer.finalize, Trainer.load_best. rewrite Hbest. cbn [bind].
  cbn [Trainer.params Trainer.log Trainer.set_params]. rewrite Htta.
  cbn [bind Trainer.acc_max].
  eexists. split; [reflexivity|].
  cbn [Trainer.trace Trainer.params Trainer.log].
  split; [rewrite <- app_assoc; reflexivity|].
  split; [reflexivity|]. split.
  - intros batch_size mode b. unfold Trainer.setup.
    destruct (n_tta =? 0)%Z; cbn [negb].
    + intro H. injection H as <- _. reflexivity.
    + destruct (py_int_true_div batch_size n_tta); cbn [bind];
        [|discriminate].
      intro H. injection H as <- _. reflexivity.
  - split; [symmetry; exact Hacc|]. split; [exact Hle|].
    apply py_max_lub.
Qed.

(** The end-to-end run as the program executes it: with margin 0 the
    observations 0.60 and 0.62, each a new best value, are counted as
    failures as well, the count is 3 after epoch 2 and the loop breaks
    there. *)
Lemma Scenario_run_trace (m_tta : Q) :
  exists st,
    Scenario.run m_tta = Ok (py_max 0.62 m_tta, st) /\
    Trainer.trace st =
      [Trainer.EvTrainEpoch 0; Trainer.EvTest 0;
       Trainer.EvSaveEpoch 0 0.60; Trainer.EvSaveBest 0.60;
       Trainer.EvTrainEpoch 1; Trainer.EvTest 0;
       Trainer.EvSaveEpoch 1 0.62; Trainer.EvSaveBest 0.62;
       Trainer.EvTrainEpoch 2; Trainer.EvTest 0;
       Trainer.EvSaveEpoch 2 0.61; Trainer.EvStopped 2;
       Trainer.EvLoadBest; Trainer.EvTest 8] /\
    Stopper.num_fails (Trainer.stopper st) = 3%Z /\
    Trainer.best_ckpt st = Some {| Trainer.ck_params := 2%nat;
                                   Trainer.ck_acc := 0.62 |}.
Proof.
  eexists. split; [vm_compute; reflexivity|].
  repeat split.
Qed.

Lemma C6_train_reloads_best_and_returns_max_witness :
  exists st',
    Scenario.run 0.63 = Ok (py_max 0.62 0.63, st') /\
    Trainer.params st' = 2%nat.
Proof.
  destruct (C6_train_reloads_best_and_returns_max
              nat Scenario.train_epoch (Scenario.test_accuracy 0.63) 1 5 8 0%nat
              Scenario.stopper_3_0
              {| Trainer.params := 3%nat; Trainer.acc_max := 0.62;
                 Trainer.best_epoch := 1%nat;
                 Trainer.stopper :=
                   {| Stopper.n_observation := 3; Stopper.delta := 0;
                      Stopper.cur_val := Some 0.61;
                      Stopper.value_max := 0.62; Stopper.num_fails := 3 |};
                 Trainer.epoch_ckpts :=
                   [(0%nat, {| Trainer.ck_params := 1%nat; Trainer.ck_acc := 0.60 |});
                    (1%nat, {| Trainer.ck_params := 2%nat; Trainer.ck_acc := 0.62 |});
                    (2%nat, {| Trainer.ck_params := 3%nat; Trainer.ck_acc := 0.61 |})];
                 Trainer.best_ckpt :=
                   Some {| Trainer.ck_params := 2%nat; Trainer.ck_acc := 0.62 |};
                 Trainer.trace :=
                   [Trainer.EvTrainEpoch 0; Trainer.EvTest 0;
                    Trainer.EvSaveEpoch 0 0.60; Trainer.EvSaveBest 0.60;
                    Trainer.EvTrainEpoch 1; Trainer.EvTest 0;
                    Trainer.EvSaveEpoch 1 0.62; Trainer.EvSaveBest 0.62;
                    Trainer.EvTrainEpoch 2; Trainer.EvTest 0;
                    Trainer.EvSaveEpoch 2 0.61; Trainer.EvStopped 2] |}
              {| Trainer.ck_params := 2%nat; Trainer.ck_acc := 0.62 |}
              0.63)
    as [st' [Hrun [_ [Hp _]]]].
  - vm_compute. reflexivity.
  - reflexivity.
  - reflexivity.
  - exists st'. split; [exact Hrun | exact Hp].
Defined.

(** C1, on the program: the run with accuracies 0.60, 0.62, 0.61, 0.60,
    0.59, threshold 3 and margin 0 returns the larger of 0.62 and the
    accuracy with augmentation, as the claim says, but it breaks at
    epoch 2, not at epoch 4: epochs 3 and 4 are never trained.  Under the
    specification's order of update the criterion would first hold at the
    fifth observation. *)
Theorem C1_end_to_end_run_breaks_at_epoch_2 (m_tta : Q) :
  exists st,
    Scenario.run m_tta = Ok (py_max 0.62 m_tta, st) /\
    In (Trainer.EvStopped 2) (Trainer.trace st) /\
    ~ In (Trainer.EvStopped 4) (Trainer.trace st) /\
    ~ In (Trainer.EvTrainEpoch 3) (Trainer.trace st) /\
    ~ In (Trainer.EvTrainEpoch 4) (Trainer.trace st) /\
    Scenario.spec_feed Scenario.stopper_3_0 Scenario.accuracies
      = [false; false; false; false; true].
Proof.
  destruct (Scenario_run_trace m_tta) as [st [Hrun [Htr _]]].
  exists st. split; [exact Hrun|]. rewrite Htr.
  split; [cbn; tauto|].
  repeat split; try (intro H; cbn in H;
    repeat (destruct H as [H|H]; [discriminate H|]); exact H).
Qed.

(** C5, on the program: when the only evaluated epoch has accuracy 0, the
    per-epoch checkpoint is written with metric 0 and the best checkpoint
    is not written at all, so its metric is not the maximum 0; the reload
    that follows the loop then finds no file. *)
Theorem C5_no_best_checkpoint_when_maximum_is_zero :
  exists st,
    Trainer.epochs nat Scenario.train_epoch Scenario.zero_accuracy 1 (seq 0 1)
      (Trainer.start nat 0%nat Scenario.stopper_3_001 [] None) = Ok st /\
    Trainer.epoch_ckpts st =
      [(0%nat, {| Trainer.ck_params := 1%nat; Trainer.ck_acc := 0 |})] /\
    Trainer.best_ckpt st = None /\
    Scenario.zero_run = Raise FileNotFoundError.
Proof.
  eexists. split; [vm_compute; reflexivity|].
  repeat split.
Qed.

(** X23: the positive case of the checkpoint invariant: in a run that
    started in an empty checkpoint directory, once some evaluated epoch
    has a positive metric the best checkpoint exists, is one of the
    per-epoch checkpoints, and its metric is at least every per-epoch
    metric. *)
Lemma best_ckpt_is_maximum
  (Params : Type) (train_epoch : Params -> res Params)
  (test_accuracy : Params -> Z -> res Q) (test_freq : Z)
  (range : list nat) (p0 : Params) (s0 : Stopper.t)
  (st : Trainer.state Params) (i : nat) (c : Trainer.ckpt Params) :
  Trainer.epochs Params train_epoch test_accuracy test_freq range
    (Trainer.start Params p0 s0 [] None) = Ok st ->
  In (i, c) (Trainer.epoch_ckpts st) ->
  0 < Trainer.ck_acc c ->
  exists b j,
    Trainer.best_ckpt st = Some b /\
    In (j, b) (Trainer.epoch_ckpts st) /\
    forall k c', In (k, c') (Trainer.epoch_ckpts st) ->
                 Trainer.ck_acc c' <= Trainer.ck_acc b.
Proof.
  intros Hloop Hin Hpos.
  pose proof (best_inv_epochs Params train_epoch test_accuracy test_freq
                _ _ _ Hloop (best_inv_start Params p0 s0)) as [Hle Hb].
  destruct (Trainer.best_ckpt st) as [b|].
  - destruct Hb as [Hacc [j Hj]]. exists b, j.
    split; [reflexivity|]. split; [exact Hj|].
    intros k c' Hk. rewrite Hacc. exact (Hle k c' Hk).
  - specialize (Hle i c Hin). rewrite Hb in Hle. lra.
Qed.


(** * Further properties of the code *)

(** ** Stopper: the best value and the failure count over a run *)

Lemma py_max_cases (a b : Q) :
  (py_max a b = a /\ b <= a) \/ (py_max a b = b /\ a < b).
Proof.
  unfold py_max. destruct (Qltb a b) eqn:E.
  - right. split; [reflexivity | apply Qltb_true; exact E].
  - left. split; [reflexivity | apply Qltb_false; exact E].
Qed.

(** One observation: the state after it, field by field, and the first
    step of [feed]. *)
Lemma Stopper_feed_step (s : Stopper.t) (v : Q) (vs : list Q) :
  exists s1,
    Stopper.update s v = Ok s1 /\
    Stopper.n_observation s1 = Stopper.n_observation s /\
    Stopper.delta s1 = Stopper.delta s /\
    Stopper.cur_val s1 = Some v /\
    Stopper.value_max s1 = py_max (Stopper.value_max s) v /\
    Stopper.num_fails s1 =
      (if Qgeb (Stopper.value_max s1 - v) (Stopper.delta s)
       then (Stopper.num_fails s + 1)%Z else 0%Z) /\
    Stopper.feed s (v :: vs) =
      (r <- Stopper.feed s1 vs ;;
       Ok (fst r, Stopper.check_criterion s1 :: snd r)).
Proof.
  eexists. split; [apply Stopper_update_Ok|].
  cbn [Stopper.n_observation Stopper.delta Stopper.cur_val
       Stopper.value_max Stopper.num_fails Stopper.feed].
  repeat (split; [reflexivity|]).
  rewrite Stopper_update_Ok. reflexivity.
Qed.

(** Over any sequence of observations [feed] never raises, answers once
    per observation, keeps the configuration, and the best value only
    grows: it ends at least as large as every observation and is either
    the initial best value or one of the observations. *)
Lemma Stopper_feed_facts (vs : list Q) :
  forall s : Stopper.t, exists s' bs,
    Stopper.feed s vs = Ok (s', bs) /\
    length bs = length vs /\
    Stopper.n_observation s' = Stopper.n_observation s /\
    Stopper.delta s' = Stopper.delta s /\
    Stopper.value_max s <= Stopper.value_max s' /\
    (forall v, In v vs -> v <= Stopper.value_max s') /\
    (Stopper.value_max s' = Stopper.value_max s \/
     In (Stopper.value_max s') vs).
Proof.
  induction vs as [|v vs IH]; intro s.
  - exists s, []. cbn [Stopper.feed length In].
    repeat (split; [reflexivity|]).
    split; [apply Qle_refl|]. split; [intros v []|]. left. reflexivity.
  - destruct (Stopper_feed_step s v vs)
      as [s1 [_ [Hn [Hd [_ [Hm [_ Hfeed]]]]]]].
    destruct (IH s1) as [s' [bs [Hf [Hlen [Hn' [Hd' [Hmono [Hall Hin]]]]]]]].
    exists s', (Stopper.check_criterion s1 :: bs).
    rewrite Hfeed, Hf. cbn [bind fst snd length In].
    split; [reflexivity|]. split; [rewrite Hlen; reflexivity|].
    split; [congruence|]. split; [congruence|].
    destruct (py_max_lub (Stopper.value_max s) v) as [Ha Hb].
    rewrite <- Hm in Ha, Hb.
    split; [apply (Qle_trans _ _ _ Ha Hmono)|].
    split.
    + intros w [<-|Hw]; [apply (Qle_trans _ _ _ Hb Hmono) | apply Hall; exact Hw].
    + destruct Hin as [Heq|Hin]; [|right; right; exact Hin].
      rewrite Heq, Hm.
      destruct (py_max_cases (Stopper.value_max s) v) as [[-> _]|[-> _]];
        [left; reflexivity | right; left; reflexivity].
Qed.

(** X1: for a policy made by the constructor and any observations,
    [value_max] ends as the maximum of the initial 0 and the
    observations: it is not negative, no observation exceeds it, and it
    is 0 or one of the observations. *)
Theorem X1_value_max_is_max_of_zero_and_observations
  (n_observation : Z) (delta : Q) (vs : list Q) :
  exists s' bs,
    (s <- Stopper.__init__ n_observation delta ;; Stopper.feed s vs)
      = Ok (s', bs) /\
    0 <= Stopper.value_max s' /\
    (forall v, In v vs -> v <= Stopper.value_max s') /\
    (Stopper.value_max s' = 0 \/ In (Stopper.value_max s') vs).
Proof.
  cbn [Stopper.__init__ bind].
  destruct (Stopper_feed_facts vs
              {| Stopper.n_observation := n_observation;
                 Stopper.delta := delta; Stopper.cur_val := None;
                 Stopper.value_max := 0; Stopper.num_fails := 0 |})
    as [s' [bs [Hf [_ [_ [_ [Hmono [Hall Hin]]]]]]]].
  exists s', bs. cbn [Stopper.value_max] in Hmono, Hin.
  repeat split; assumption.
Qed.

(** X2: the criterion cannot hold early.  For a policy made by the
    constructor, the failure count after the observations is between 0
    and their number, and an answer [true] of [check_criterion] after
    observation number [k + 1] needs [0 <= n_observation <= k + 1]; with
    a negative threshold the criterion never holds. *)
Theorem X2_no_stop_before_threshold
  (n_observation : Z) (delta : Q) (vs : list Q) :
  exists s' bs,
    (s <- Stopper.__init__ n_observation delta ;; Stopper.feed s vs)
      = Ok (s', bs) /\
    (0 <= Stopper.num_fails s' <= Z.of_nat (length vs))%Z /\
    (forall k, nth k bs false = true ->
               (0 <= n_observation <= Z.of_nat k + 1)%Z).
Proof.
  cbn [Stopper.__init__ bind].
  set (s0 := {| Stopper.n_observation := n_observation;
                Stopper.delta := delta; Stopper.cur_val := None;
                Stopper.value_max := 0; Stopper.num_fails := 0 |}).
  assert (G : forall (l : list Q) (s : Stopper.t) (b : Z),
             (0 <= Stopper.num_fails s <= b)%Z ->
             exists s' bs,
               Stopper.feed s l = Ok (s', bs) /\
               (0 <= Stopper.num_fails s' <= b + Z.of_nat (length l))%Z /\
               (forall k, nth k bs false = true ->
                  (0 <= Stopper.n_observation s <= b + Z.of_nat k + 1)%Z)).
  { induction l as [|v l IH]; intros s b Hb.
    - exists s, []. cbn [Stopper.feed length]. split; [reflexivity|].
      split; [lia|]. intros k Hk. destruct k; discriminate Hk.
    - destruct (Stopper_feed_step s v l)
        as [s1 [_ [Hn [_ [_ [_ [Hnf Hfeed]]]]]]].
      assert (Hb1 : (0 <= Stopper.num_fails s1 <= b + 1)%Z).
      { rewrite Hnf. destruct (Qgeb _ _); lia. }
      destruct (IH s1 (b + 1)%Z Hb1) as [s' [bs [Hf [Hnf' Hk']]]].
      exists s', (Stopper.check_criterion s1 :: bs).
      rewrite Hfeed, Hf. cbn [bind fst snd length].
      split; [reflexivity|]. split; [lia|].
      intros [|k] Hk; cbn [nth] in Hk.
      + unfold Stopper.check_criterion in Hk. apply Z.eqb_eq in Hk. lia.
      + specialize (Hk' k Hk). lia. }
  destruct (G vs s0 0%Z) as [s' [bs [Hf [Hnf Hk]]]]; [cbn; lia|].
  exists s', bs. split; [exact Hf|]. split; [lia|].
  intros k Hk'. specialize (Hk k Hk'). cbn [Stopper.n_observation s0] in Hk.
  lia.
Qed.

(** X3: with a margin that is zero or negative every observation is
    counted as a failure, whatever its value: the count grows by one per
    observation and [check_criterion] answers [true] exactly when the
    count passes the threshold, so the policy stops after a fixed number
    of observations. *)
Theorem X3_nonpositive_margin_counts_every_observation
  (vs : list Q) (s : Stopper.t) :
  Stopper.delta s <= 0 ->
  exists s' bs,
    Stopper.feed s vs = Ok (s', bs) /\
    Stopper.num_fails s' = (Stopper.num_fails s + Z.of_nat (length vs))%Z /\
    bs = map (fun k => (Stopper.num_fails s + Z.of_nat (S k)
                        =? Stopper.n_observation s)%Z)
             (seq 0 (length vs)).
Proof.
  revert s. induction vs as [|v vs IH]; intros s Hd.
  - exists s, []. cbn [Stopper.feed length seq map].
    split; [reflexivity|]. split; [lia | reflexivity].
  - destruct (Stopper_feed_step s v vs)
      as [s1 [_ [Hn [Hd1 [_ [Hm [Hnf Hfeed]]]]]]].
    assert (Hfail : Qgeb (Stopper.value_max s1 - v) (Stopper.delta s) = true).
    { apply Qgeb_true. rewrite Hm.
      destruct (py_max_lub (Stopper.value_max s) v). lra. }
    rewrite Hfail in Hnf.
    destruct (IH s1) as [s' [bs [Hf [Hnf' Hbs]]]]; [rewrite Hd1; exact Hd|].
    exists s', (Stopper.check_criterion s1 :: bs).
    rewrite Hfeed, Hf. cbn [bind fst snd length].
    split; [reflexivity|]. split; [lia|].
    cbn [seq map]. f_equal.
    + unfold Stopper.check_criterion. rewrite Hnf, Hn. f_equal; lia.
    + rewrite Hbs, <- seq_shift, map_map. apply map_ext.
      intro k. rewrite Hnf, Hn. f_equal; lia.
Qed.

Lemma X3_nonpositive_margin_counts_every_observation_witness :
  exists s' bs,
    Stopper.feed Scenario.stopper_3_0 [0.1; 0.2; 0.3; 0.4] = Ok (s', bs) /\
    Stopper.num_fails s' = 4%Z /\
    bs = [false; false; true; false].
Proof.
  destruct (X3_nonpositive_margin_counts_every_observation
              [0.1; 0.2; 0.3; 0.4] Scenario.stopper_3_0)
    as [s' [bs [Hf [Hn Hb]]]].
  - cbn. unfold Qle. cbn. lia.
  - exists s', bs. split; [exact Hf|]. split; [exact Hn | exact Hb].
Defined.



(** X5: a plateau never stops the run when the margin is positive.  For a
    policy made by the constructor with [delta > 0] and a metric that
    stays at one value [c > - delta], no observation is a failure: the
    count is 0 after every observation, so [check_criterion] can only
    hold for the threshold 0. *)
Theorem X5_plateau_is_never_a_failure
  (n_observation : Z) (delta c : Q) (k : nat) :
  0 < delta -> - delta < c ->
  exists s' bs,
    (s <- Stopper.__init__ n_observation delta ;;
     Stopper.feed s (repeat c k)) = Ok (s', bs) /\
    Stopper.num_fails s' = 0%Z /\
    bs = repeat (0 =? n_observation)%Z k.
Proof.
  intros Hd Hc. cbn [Stopper.__init__ bind].
  set (s0 := {| Stopper.n_observation := n_observation;
                Stopper.delta := delta; Stopper.cur_val := None;
                Stopper.value_max := 0; Stopper.num_fails := 0 |}).
  assert (G : forall (j : nat) (s : Stopper.t),
             Stopper.delta s = delta ->
             Stopper.n_observation s = n_observation ->
             Stopper.num_fails s = 0%Z ->
             Stopper.value_max s - delta < c ->
             exists s' bs,
               Stopper.feed s (repeat c j) = Ok (s', bs) /\
               Stopper.num_fails s' = 0%Z /\
               bs = repeat (0 =? n_observation)%Z j).
  { induction j as [|j IH]; intros s Hds Hns Hfs Hvs.
    - exists s, []. cbn [repeat Stopper.feed]. repeat split. exact Hfs.
    - cbn [repeat].
      destruct (Stopper_feed_step s c (repeat c j))
        as [s1 [_ [Hn [Hd1 [_ [Hm [Hnf Hfeed]]]]]]].
      assert (Hno : Qgeb (Stopper.value_max s1 - c) (Stopper.delta s) = false).
      { apply Qgeb_false. rewrite Hm, Hds.
        destruct (py_max_cases (Stopper.value_max s) c) as [[-> _]|[-> _]]; lra. }
      rewrite Hno in Hnf.
      assert (Hv1 : Stopper.value_max s1 - delta < c).
      { rewrite Hm.
        destruct (py_max_cases (Stopper.value_max s) c) as [[-> _]|[-> _]]; lra. }
      destruct (IH s1) as [s' [bs [Hf [Hnf' Hbs]]]]; try congruence.
      exists s', (Stopper.check_criterion s1 :: bs).
      rewrite Hfeed, Hf. cbn [bind fst snd].
      split; [reflexivity|]. split; [exact Hnf'|].
      unfold Stopper.check_criterion. rewrite Hnf, Hn, Hns, Hbs.
      reflexivity. }
  apply (G k s0); try reflexivity.
  cbn [Stopper.value_max s0]. lra.
Qed.

Lemma X5_plateau_is_never_a_failure_witness :
  exists s' bs,
    (s <- Stopper.__init__ 3 0.01 ;;
     Stopper.feed s (repeat 0.5 4)) = Ok (s', bs) /\
    Stopper.num_fails s' = 0%Z /\
    bs = repeat (0 =? 3)%Z 4.
Proof.
  apply (X5_plateau_is_never_a_failure 3 0.01 0.5 4).
  - reflexivity.
  - reflexivity.
Defined.

(** ** OnlineAvg: bounds, order and the means read on the way *)

Lemma inject_Z_length_pos {A : Type} (x : A) (xs : list A) :
  0 < inject_Z (Z.of_nat (length (x :: xs))).
Proof.
  unfold Qlt. cbn [Qnum Qden inject_Z length]. lia.
Qed.

Lemma OnlineAvg_sum_bounds (lo hi : Q) (xs : list Q) :
  (forall y, In y xs -> lo <= y /\ y <= hi) ->
  lo * inject_Z (Z.of_nat (length xs)) <= OnlineAvg.sum xs /\
  OnlineAvg.sum xs <= hi * inject_Z (Z.of_nat (length xs)).
Proof.
  induction xs as [|x xs IH]; intro H.
  - unfold OnlineAvg.sum. cbn [length fold_left Z.of_nat num_zero Exact].
    change (inject_Z 0) with 0. lra.
  - destruct IH as [IHlo IHhi]; [intros y Hy; apply H; right; exact Hy|].
    destruct (H x (or_introl eq_refl)) as [Hlo Hhi].
    cbn [length]. rewrite Nat2Z.inj_succ. unfold Z.succ.
    rewrite inject_Z_plus. change (inject_Z 1) with 1.
    rewrite OnlineAvg_sum_cons. lra.
Qed.

(** X6: on exact numbers the running average stays within the range of
    the observations: if every observation of a non-empty sequence lies
    between [lo] and [hi], so does [avg] after feeding them to a fresh
    [OnlineAvg].  On Python floats it need not: after 0.1, 0.1, 0.1 the
    stored [avg] is above 0.1. *)
Theorem X6_online_avg_within_bounds (lo hi x : Q) (xs : list Q) :
  (forall y, In y (x :: xs) -> lo <= y /\ y <= hi) ->
  (exists s,
     OnlineAvg.feed OnlineAvg.__init__ (x :: xs) = Ok s /\
     lo <= OnlineAvg.avg s /\ OnlineAvg.avg s <= hi) /\
  (exists s,
     OnlineAvg.feed OnlineAvg.__init__ [0.1; 0.1; 0.1]%float = Ok s /\
     OnlineAvg.avg s = 0.10000000000000002%float /\
     PrimFloat.ltb 0.1 (OnlineAvg.avg s) = true).
Proof.
  intro H. split.
  - destruct (OnlineAvg_feed_sum (x :: xs) OnlineAvg.__init__)
      as [s [Hf [Hn Ha]]]; [cbn; lia|].
    exists s. split; [exact Hf|].
    cbn [OnlineAvg.__init__ OnlineAvg.n OnlineAvg.avg num_zero Exact] in Hn, Ha.
    rewrite Z.add_0_l in Hn. rewrite Hn in Ha.
    destruct (OnlineAvg_sum_bounds lo hi (x :: xs) H) as [Hlo Hhi].
    pose proof (inject_Z_length_pos x xs) as Hpos.
    assert (Ha' : OnlineAvg.avg s * inject_Z (Z.of_nat (length (x :: xs)))
                  == OnlineAvg.sum (x :: xs)) by (rewrite Ha; ring).
    split.
    + apply (Qmult_le_r _ _ _ Hpos). rewrite Ha'. exact Hlo.
    + apply (Qmult_le_r _ _ _ Hpos). rewrite Ha'. exact Hhi.
  - eexists. split; [vm_compute; reflexivity|].
    cbn [OnlineAvg.avg]. split; reflexivity.
Qed.

Lemma X6_online_avg_within_bounds_witness :
  exists s,
    OnlineAvg.feed OnlineAvg.__init__ [2; 4; 6] = Ok s /\
    2 <= OnlineAvg.avg s /\ OnlineAvg.avg s <= 6.
Proof.
  apply (X6_online_avg_within_bounds 2 6 2 [4; 6]).
  intros y [<-|[<-|[<-|[]]]]; split; unfold Qle; cbn; lia.
Defined.

Lemma OnlineAvg_sum_perm (xs ys : list Q) :
  Permutation xs ys -> OnlineAvg.sum xs == OnlineAvg.sum ys.
Proof.
  induction 1 as [|x l l' _ IH|x y l|l l' l'' _ IH1 _ IH2].
  - reflexivity.
  - rewrite !OnlineAvg_sum_cons, IH. reflexivity.
  - rewrite !OnlineAvg_sum_cons. ring.
  - rewrite IH1. exact IH2.
Qed.

(** X7: on exact numbers the average does not depend on the order of the
    observations: feeding a permutation of a sequence to a fresh
    [OnlineAvg] leaves the same count and an equal [avg].  On Python
    floats the order shows: 0.7, 0.1, 0.3 and 0.3, 0.1, 0.7 leave
    different values. *)
Theorem X7_online_avg_order_independent (xs ys : list Q) :
  Permutation xs ys ->
  (exists s t,
     OnlineAvg.feed OnlineAvg.__init__ xs = Ok s /\
     OnlineAvg.feed OnlineAvg.__init__ ys = Ok t /\
     OnlineAvg.n s = OnlineAvg.n t /\
     OnlineAvg.avg s == OnlineAvg.avg t) /\
  (exists s t,
     OnlineAvg.feed OnlineAvg.__init__ [0.7; 0.1; 0.3]%float = Ok s /\
     OnlineAvg.feed OnlineAvg.__init__ [0.3; 0.1; 0.7]%float = Ok t /\
     OnlineAvg.avg s = 0.36666666666666664%float /\
     OnlineAvg.avg t = 0.3666666666666667%float /\
     PrimFloat.eqb (OnlineAvg.avg s) (OnlineAvg.avg t) = false).
Proof.
  intro HP. split.
  - destruct (OnlineAvg_feed_sum xs OnlineAvg.__init__)
      as [s [Hs [Hns Has]]]; [cbn; lia|].
    destruct (OnlineAvg_feed_sum ys OnlineAvg.__init__)
      as [t [Ht [Hnt Hat]]]; [cbn; lia|].
    exists s, t. split; [exact Hs|]. split; [exact Ht|].
    cbn [OnlineAvg.__init__ OnlineAvg.n OnlineAvg.avg num_zero Exact]
      in Hns, Has, Hnt, Hat.
    pose proof (Permutation_length HP) as Hlen.
    split; [lia|].
    destruct xs as [|x xs'].
    + apply Permutation_nil in HP. subst ys.
      cbn in Hs, Ht. injection Hs as <-. injection Ht as <-. reflexivity.
    + assert (Hnt' : OnlineAvg.n t = OnlineAvg.n s) by lia.
      rewrite Hnt' in Hat. rewrite Z.add_0_l in Hns. rewrite Hns in Has, Hat.
      pose proof (inject_Z_length_pos x xs') as Hpos.
      assert (Hz : ~ inject_Z (Z.of_nat (length (x :: xs'))) == 0)
        by (intro E; rewrite E in Hpos; apply (Qlt_irrefl 0 Hpos)).
      apply (Qmult_inj_r _ _ _ Hz).
      rewrite Has, Hat, (OnlineAvg_sum_perm _ _ HP). reflexivity.
  - eexists. eexists. split; [vm_compute; reflexivity|].
    split; [vm_compute; reflexivity|].
    cbn [OnlineAvg.avg]. repeat split.
Qed.

Lemma X7_online_avg_order_independent_witness :
  exists s t,
    OnlineAvg.feed OnlineAvg.__init__ [6; 1; 2] = Ok s /\
    OnlineAvg.feed OnlineAvg.__init__ [1; 2; 6] = Ok t /\
    OnlineAvg.n s = OnlineAvg.n t /\
    OnlineAvg.avg s == OnlineAvg.avg t.
Proof.
  apply (X7_online_avg_order_independent [6; 1; 2] [1; 2; 6]).
  apply (Permutation_cons_app [1; 2] [] 6). apply Permutation_refl.
Defined.

(** The value read after observation number [k + 1] is the [avg] left by
    feeding the first [k + 1] observations. *)
Lemma OnlineAvg_means_feed (xs : list Q) :
  forall s : OnlineAvg.t Q,
    (0 <= OnlineAvg.n s)%Z ->
    exists ms,
      OnlineAvg.means s xs = Ok ms /\
      length ms = length xs /\
      forall k, (k < length xs)%nat ->
        exists sk,
          OnlineAvg.feed s (firstn (S k) xs) = Ok sk /\
          nth k ms 0 = OnlineAvg.avg sk.
Proof.
  induction xs as [|x xs IH]; intros s Hn.
  - exists []. cbn [OnlineAvg.means length].
    repeat split. intros k Hk. lia.
  - destruct (OnlineAvg_update_step s x Hn) as [s1 [Hu [Hn1 _]]].
    destruct (IH s1) as [ms [Hm [Hlen Hk]]]; [lia|].
    exists (OnlineAvg.avg s1 :: ms).
    cbn [OnlineAvg.means]. rewrite Hu. cbn [bind]. rewrite Hm. cbn [bind].
    split; [reflexivity|]. split; [cbn [length]; lia|].
    intros [|k] Hlt.
    + exists s1. cbn [firstn OnlineAvg.feed]. rewrite Hu. cbn [bind nth].
      destruct xs; split; reflexivity.
    + cbn [length] in Hlt. destruct (Hk k) as [sk [Hfk Hnk]]; [lia|].
      exists sk. split; [|exact Hnk].
      change (firstn (S (S k)) (x :: xs)) with (x :: firstn (S k) xs).
      cbn [OnlineAvg.feed]. rewrite Hu. cbn [bind]. exact Hfk.
Qed.

(** X8: on exact numbers the means read on the way are the means of the
    prefixes: after a fresh [OnlineAvg] has taken observation number
    [k + 1] of a sequence, [avg] is the sum of the first [k + 1]
    observations divided by [k + 1].  On Python floats the value read
    after 0.1, 0.2, 0.6, 0.1 differs from the sum divided by 4. *)
Theorem X8_sequential_means_are_prefix_means (xs : list Q) (k : nat) :
  (k < length xs)%nat ->
  (exists ms,
     OnlineAvg.means OnlineAvg.__init__ xs = Ok ms /\
     length ms = length xs /\
     nth k ms 0
       == OnlineAvg.sum (firstn (S k) xs) / inject_Z (Z.of_nat (S k))) /\
  (exists ms m,
     OnlineAvg.means OnlineAvg.__init__ [0.1; 0.2; 0.6; 0.1]%float = Ok ms /\
     OnlineAvg.naive_mean [0.1; 0.2; 0.6; 0.1]%float = Ok m /\
     PrimFloat.eqb (nth 3 ms 0%float) m = false).
Proof.
  intro Hk. split.
  - destruct (OnlineAvg_means_feed xs OnlineAvg.__init__)
      as [ms [Hm [Hlen Hnth]]]; [cbn; lia|].
    exists ms. split; [exact Hm|]. split; [exact Hlen|].
    destruct (Hnth k Hk) as [sk [Hfk ->]].
    destruct (OnlineAvg_feed_sum (firstn (S k) xs) OnlineAvg.__init__)
      as [s [Hf [Hn Ha]]]; [cbn; lia|].
    rewrite Hf in Hfk. injection Hfk as <-.
    cbn [OnlineAvg.__init__ OnlineAvg.n OnlineAvg.avg num_zero Exact] in Hn, Ha.
    rewrite Z.add_0_l in Hn. rewrite length_firstn in Hn.
    rewrite (Nat.min_l (S k)) in Hn by lia. rewrite Hn in Ha.
    assert (Hpos : 0 < inject_Z (Z.of_nat (S k)))
      by (unfold Qlt; cbn [Qnum Qden inject_Z]; lia).
    assert (Hz : ~ inject_Z (Z.of_nat (S k)) == 0)
      by (intro E; rewrite E in Hpos; apply (Qlt_irrefl 0 Hpos)).
    apply (Qmult_inj_r _ _ _ Hz). rewrite Ha. field. exact Hz.
  - eexists. eexists. split; [vm_compute; reflexivity|].
    split; [vm_compute; reflexivity|]. reflexivity.
Qed.

Lemma X8_sequential_means_are_prefix_means_witness :
  exists ms,
    OnlineAvg.means OnlineAvg.__init__ [2; 4; 6] = Ok ms /\
    length ms = 3%nat /\
    nth 1 ms 0 == OnlineAvg.sum [2; 4] / inject_Z 2.
Proof.
  apply (X8_sequential_means_are_prefix_means [2; 4; 6] 1).
  cbn. lia.
Defined.

(** ** Trainer.test: the loader's batch size and the writes *)

(** X9: the views of one forward pass stay within the configured batch
    size.  For [0 < n_tta <= batch_size] and a batch size below [2^53]
    the loader's batch size [b] is at least 1, [b * n_tta] views do not
    exceed [batch_size], and one more sample per batch would.  From [2^53]
    on the quotient is rounded first and the views can exceed the batch
    size: [2^53 + 3] over 1 gives [2^53 + 4]. *)
Theorem X9_tta_views_within_batch_size (batch_size n_tta : Z) :
  (0 < n_tta)%Z -> (n_tta <= batch_size)%Z -> (batch_size < 2 ^ 53)%Z ->
  (exists mode b,
     Trainer.setup batch_size n_tta = Ok (mode, b) /\
     (1 <= b)%Z /\
     (b * n_tta <= batch_size)%Z /\
     (batch_size < (b + 1) * n_tta)%Z) /\
  Trainer.setup (2 ^ 53 + 3) 1
  = Ok (Trainer.TestTransforms 1, (2 ^ 53 + 4)%Z).
Proof.
  intros Hn Hb Hlt. split; [|vm_compute; reflexivity].
  exists (Trainer.TestTransforms n_tta), (batch_size / n_tta)%Z.
  split.
  - unfold Trainer.setup.
    replace (n_tta =? 0)%Z with false by (symmetry; apply Z.eqb_neq; lia).
    cbn [negb]. rewrite py_int_true_div_floor by lia. reflexivity.
  - pose proof (Z.div_mod batch_size n_tta ltac:(lia)) as Hdm.
    pose proof (Z.mod_pos_bound batch_size n_tta Hn) as Hmod.
    assert (H1 : (1 <= batch_size / n_tta)%Z)
      by (apply Z.div_le_lower_bound; lia).
    split; [exact H1|]. split; nia.
Qed.

Lemma X9_tta_views_within_batch_size_witness :
  exists mode b,
    Trainer.setup 256 3 = Ok (mode, b) /\
    (1 <= b)%Z /\ (b * 3 <= 256)%Z /\ (256 < (b + 1) * 3)%Z.
Proof.
  apply (X9_tta_views_within_batch_size 256 3); lia.
Defined.

(** X10: more views than the batch size leave no room for a sample.  For
    [0 <= batch_size < n_tta] and a batch size below [2^53] the loader's
    batch size is 0, the loader refuses it, and [Trainer.test] raises
    before any sample is evaluated.  From [2^53] on the quotient can round
    up to 1: [2^60 - 1] over [2^60] gives the loader's batch size 1. *)
Theorem X10_test_raises_when_views_exceed_batch_size
  (label_of : nat -> Z) (classify : nat -> Z * Q)
  (n_samples : nat) (batch_size n_tta : Z) :
  (0 <= batch_size)%Z -> (batch_size < n_tta)%Z -> (batch_size < 2 ^ 53)%Z ->
  Trainer.setup batch_size n_tta = Ok (Trainer.TestTransforms n_tta, 0%Z) /\
  Trainer.test label_of classify n_samples batch_size n_tta
  = Raise ValueError /\
  Trainer.setup (2 ^ 60 - 1) (2 ^ 60)
  = Ok (Trainer.TestTransforms (2 ^ 60), 1%Z).
Proof.
  intros Hb Hn Hlt.
  assert (H0 : Trainer.setup batch_size n_tta
               = Ok (Trainer.TestTransforms n_tta, 0%Z)).
  { unfold Trainer.setup.
    replace (n_tta =? 0)%Z with false by (symmetry; apply Z.eqb_neq; lia).
    cbn [negb]. rewrite py_int_true_div_floor by lia.
    rewrite Z.div_small by lia. reflexivity. }
  split; [exact H0|]. split; [|vm_compute; reflexivity].
  unfold Trainer.test. rewrite H0. reflexivity.
Qed.

Lemma X10_test_raises_when_views_exceed_batch_size_witness :
  Trainer.setup 4 8 = Ok (Trainer.TestTransforms 8, 0%Z) /\
  Trainer.test (fun k => Z.of_nat k) (fun k => (Z.of_nat k, 1)) 10 4 8
  = Raise ValueError.
Proof.
  split;
    apply (X10_test_raises_when_views_exceed_batch_size
             (fun k => Z.of_nat k) (fun k => (Z.of_nat k, 1)) 10 4 8); lia.
Defined.

(** A slice assignment that succeeds keeps the length of the array and
    every entry outside [i_start, i_stop). *)
Lemma assign_slice_frame {A : Type} (arr arr' vals : list A) (lo hi : nat) :
  Trainer.assign_slice arr lo hi vals = Ok arr' ->
  length arr' = length arr /\
  forall j, (j < lo \/ hi <= j)%nat -> nth_error arr' j = nth_error arr j.
Proof.
  unfold Trainer.assign_slice.
  set (a := Nat.min lo (length arr)).
  set (b := Nat.max a (Nat.min hi (length arr))).
  intro H.
  assert (Hab : (a <= b <= length arr)%nat) by (unfold a, b; lia).
  assert (Hshape : exists mid, length mid = (b - a)%nat /\
                               arr' = firstn a arr ++ mid ++ skipn b arr).
  { destruct (length vals =? b - a)%nat eqn:E.
    - apply Nat.eqb_eq in E. injection H as <-. exists vals. split; trivial.
    - destruct vals as [|x [|y vals']]; try discriminate H.
      injection H as <-. exists (repeat x (b - a)).
      split; [apply repeat_length | reflexivity]. }
  destruct Hshape as [mid [Hmid ->]].
  assert (Hlen : length (firstn a arr ++ mid ++ skipn b arr) = length arr).
  { rewrite !length_app, length_firstn, length_skipn. lia. }
  split; [exact Hlen|].
  intros j Hj.
  destruct (Nat.lt_ge_cases j (length arr)) as [Hin|Hout].
  - destruct (Nat.lt_ge_cases j a) as [Hja|Hja].
    + rewrite nth_error_app1 by (rewrite length_firstn; lia).
      rewrite nth_error_firstn.
      replace (j <? a)%nat with true by (symmetry; apply Nat.ltb_lt; exact Hja).
      reflexivity.
    + assert (Hjb : (b <= j)%nat) by (unfold a, b in *; lia).
      rewrite nth_error_app2 by (rewrite length_firstn; lia).
      rewrite nth_error_app2 by (rewrite length_firstn; lia).
      rewrite nth_error_skipn, length_firstn. f_equal. lia.
  - transitivity (@None A).
    + apply nth_error_None. rewrite Hlen. exact Hout.
    + symmetry. apply nth_error_None. exact Hout.
Qed.

(** X11: one turn of the evaluation loop, whatever the batch handed to
    it, never resizes the three result arrays and never changes a
    position outside the batch's range
    [i * batch_size, min(i * batch_size + batch_size, n_samples)). *)
Theorem X11_batch_write_stays_in_its_range
  (label_of : nat -> Z) (classify : nat -> Z * Q)
  (n_samples batch_size i : nat) (data : list nat)
  (a a' : Trainer.arrays) :
  Trainer.step label_of classify n_samples batch_size a i data = Ok a' ->
  (length (Trainer.labels a') = length (Trainer.labels a) /\
   length (Trainer.preds a') = length (Trainer.preds a) /\
   length (Trainer.confs a') = length (Trainer.confs a)) /\
  forall j,
    (j < i * batch_size \/
     Nat.min (i * batch_size + batch_size) n_samples <= j)%nat ->
    nth_error (Trainer.labels a') j = nth_error (Trainer.labels a) j /\
    nth_error (Trainer.preds a') j = nth_error (Trainer.preds a) j /\
    nth_error (Trainer.confs a') j = nth_error (Trainer.confs a) j.
Proof.
  unfold Trainer.step, Trainer.i_stop, Trainer.i_start. intro H.
  destruct (Trainer.assign_slice (Trainer.labels a) _ _ _) as [ls|e] eqn:El;
    [|discriminate H].
  destruct (Trainer.assign_slice (Trainer.preds a) _ _ _) as [ps|e] eqn:Ep;
    [|discriminate H].
  destruct (Trainer.assign_slice (Trainer.confs a) _ _ _) as [cs|e] eqn:Ec;
    [|discriminate H].
  cbn [bind] in H. injection H as <-.
  cbn [Trainer.labels Trainer.preds Trainer.confs].
  destruct (assign_slice_frame _ _ _ _ _ El) as [Ll Fl].
  destruct (assign_slice_frame _ _ _ _ _ Ep) as [Lp Fp].
  destruct (assign_slice_frame _ _ _ _ _ Ec) as [Lc Fc].
  split; [repeat split; assumption|].
  intros j Hj. repeat split; [apply Fl | apply Fp | apply Fc]; exact Hj.
Qed.

Lemma X11_batch_write_stays_in_its_range_witness :
  nth_error [7; 7; 2; 3; 7]%Z 4 = nth_error [7; 7; 7; 7; 7]%Z 4.
Proof.
  destruct (X11_batch_write_stays_in_its_range
              (fun k => Z.of_nat k) (fun k => (Z.of_nat k, 1)) 5 2 1 [2; 3]%nat
              {| Trainer.labels := [7; 7; 7; 7; 7]%Z;
                 Trainer.preds := [7; 7; 7; 7; 7]%Z;
                 Trainer.confs := [1; 1; 1; 1; 1] |}
              {| Trainer.labels := [7; 7; 2; 3; 7]%Z;
                 Trainer.preds := [7; 7; 2; 3; 7]%Z;
                 Trainer.confs := [1; 1; 1; 1; 1] |})
    as [_ Hframe].
  - reflexivity.
  - destruct (Hframe 4%nat) as [Hl _]; [right; cbn; lia | exact Hl].
Defined.

(** ** Trainer.train_epoch: the step counter and the logged losses *)



Section TrainEpochFacts.

Context {T : Type} {num : Number T}.
Variable Params : Type.
Variable loss_of : Params -> list nat -> T.
Variable optimizer_step : Params -> list nat -> Params.

(** The arithmetic of the losses does not raise on the counters of the
    running average. *)
Hypothesis update_returns :
  forall (a : OnlineAvg.t T) (x : T),
    (0 <= OnlineAvg.n a)%Z -> exists a', OnlineAvg.update a x = Ok a'.



End TrainEpochFacts.






(** ** Trainer.visualize_errors: the rows of the grid *)

Section GridFacts.

Variable image : Type.
Variable get_signed_image : nat -> image.
Variable get_class_samples : nat -> Z -> list image.

Local Abbreviation row :=
  (fun m : nat * Z =>
     get_signed_image (fst m) :: get_class_samples 5 (snd m)).

(** The loop appends one row per mistake. *)
Lemma visualize_fold (ms : list (nat * Z)) :
  forall acc : list image,
    fold_left (Visualize.add_mistake image get_signed_image get_class_samples)
              ms acc
    = acc ++ flat_map row ms.
Proof.
  induction ms as [|m ms IH]; intro acc; cbn [fold_left flat_map].
  - rewrite app_nil_r. reflexivity.
  - rewrite IH. unfold Visualize.add_mistake.
    rewrite <- !app_assoc. reflexivity.
Qed.

(** Rows of equal length laid one after the other are found again by
    cutting at the multiples of that length. *)
Lemma flat_map_row {A B : Type} (f : A -> list B) (n : nat) (d : A) :
  (forall x, length (f x) = n) ->
  forall (l : list A) (k : nat),
    (k < length l)%nat ->
    firstn n (skipn (k * n) (flat_map f l)) = f (nth k l d).
Proof.
  intro Hn. induction l as [|x l IH]; intros k Hk; [cbn in Hk; lia|].
  cbn [flat_map]. destruct k as [|k].
  - cbn [Nat.mul skipn nth].
    rewrite firstn_app, Hn, Nat.sub_diag. cbn [firstn].
    rewrite app_nil_r. rewrite <- (Hn x). apply firstn_all.
  - cbn [nth]. cbn [length] in Hk.
    rewrite skipn_app, Hn.
    rewrite (skipn_all2 (f x)) by (rewrite Hn; cbn [Nat.mul]; lia).
    cbn [app].
    replace (S k * n - n)%nat with (k * n)%nat by (cbn [Nat.mul]; lia).
    apply IH. lia.
Qed.

(** X14: when the evaluation set returns the five class samples asked
    for, the grid of [visualize_errors] (six images per row) shows one
    mistake per row: row [k] is the captioned image of mistake [k]
    followed by the five samples of its label, and the grid holds six
    images per mistake. *)
Theorem X14_grid_shows_one_mistake_per_row
  (ii_worst : list nat) (labels_gt : list Z) (k : nat) :
  (forall label, length (get_class_samples 5 label) = 5%nat) ->
  length ii_worst = length labels_gt ->
  (k < length ii_worst)%nat ->
  let images_tensor :=
    Visualize.visualize_errors image get_signed_image get_class_samples
      ii_worst labels_gt in
  length images_tensor = (6 * length ii_worst)%nat /\
  Visualize.grid_row image 6 k images_tensor
  = get_signed_image (nth k ii_worst 0%nat)
    :: get_class_samples 5 (nth k labels_gt 0%Z).
Proof.
  intros H5 Hlen Hk. cbv zeta. unfold Visualize.visualize_errors.
  rewrite visualize_fold. cbn [app].
  assert (Hrow : forall m : nat * Z, length (row m) = 6%nat)
    by (intro m; cbn [length]; rewrite H5; reflexivity).
  split.
  - assert (G : forall ms : list (nat * Z),
               length (flat_map row ms) = (6 * length ms)%nat).
    { induction ms as [|m ms IH]; [reflexivity|].
      cbn [flat_map]. rewrite length_app, Hrow, IH. cbn [length]. lia. }
    rewrite G, length_combine, <- Hlen, Nat.min_id. reflexivity.
  - unfold Visualize.grid_row.
    rewrite (flat_map_row row 6 (0%nat, 0%Z) Hrow)
      by (rewrite length_combine, <- Hlen, Nat.min_id; exact Hk).
    rewrite combine_nth by exact Hlen. reflexivity.
Qed.

End GridFacts.

Lemma X14_grid_shows_one_mistake_per_row_witness :
  Visualize.grid_row nat 6 1
    (Visualize.visualize_errors nat (fun idx => idx)
       (fun n label => repeat (Z.to_nat label) n) [10; 11]%nat [7; 8]%Z)
  = [11; 8; 8; 8; 8; 8]%nat.
Proof.
  apply (X14_grid_shows_one_mistake_per_row nat (fun idx => idx)
           (fun n label => repeat (Z.to_nat label) n)
           [10; 11]%nat [7; 8]%Z 1).
  - intro label. reflexivity.
  - reflexivity.
  - cbn. lia.
Defined.

(** ** Trainer.train: what one epoch and the loop do to the state *)

Section TrainFacts.

Variable Params : Type.
Variable train_epoch : Params -> res Params.
Variable test_accuracy : Params -> Z -> res Q.
Variable test_freq : Z.

Local Abbreviation epoch :=
  (Trainer.epoch Params train_epoch test_accuracy test_freq).
Local Abbreviation epochs :=
  (Trainer.epochs Params train_epoch test_accuracy test_freq).

(** One turn of the loop that does not raise, field by field: either the
    epoch is not evaluated and only the parameters and the trace change,
    or it is evaluated, a per-epoch checkpoint is appended, [acc_max] and
    the best checkpoint follow a strictly larger accuracy, the stopper
    takes the accuracy, and the turn breaks exactly when the criterion
    holds. *)
Lemma epoch_spec (i : nat) (st st' : Trainer.state Params) (b : bool) :
  epoch i st = Ok (st', b) ->
  test_freq <> 0%Z /\
  train_epoch (Trainer.params st) = Ok (Trainer.params st') /\
  ((Z.of_nat i mod test_freq <> 0)%Z /\ b = false /\
   Trainer.acc_max st' = Trainer.acc_max st /\
   Trainer.best_epoch st' = Trainer.best_epoch st /\
   Trainer.stopper st' = Trainer.stopper st /\
   Trainer.epoch_ckpts st' = Trainer.epoch_ckpts st /\
   Trainer.best_ckpt st' = Trainer.best_ckpt st /\
   Trainer.trace st' = Trainer.trace st ++ [Trainer.EvTrainEpoch i]
   \/
   (Z.of_nat i mod test_freq = 0)%Z /\
   exists acc,
     let c := {| Trainer.ck_params := Trainer.params st';
                 Trainer.ck_acc := acc |} in
     let better := Qltb (Trainer.acc_max st) acc in
     test_accuracy (Trainer.params st') 0%Z = Ok acc /\
     Stopper.update (Trainer.stopper st) acc = Ok (Trainer.stopper st') /\
     b = Stopper.check_criterion (Trainer.stopper st') /\
     Trainer.epoch_ckpts st' = Trainer.epoch_ckpts st ++ [(i, c)] /\
     Trainer.acc_max st' = py_max (Trainer.acc_max st) acc /\
     Trainer.best_epoch st' = (if better then i else Trainer.best_epoch st) /\
     Trainer.best_ckpt st' = (if better then Some c else Trainer.best_ckpt st) /\
     Trainer.trace st' =
       Trainer.trace st
       ++ [Trainer.EvTrainEpoch i; Trainer.EvTest 0; Trainer.EvSaveEpoch i acc]
       ++ (if better then [Trainer.EvSaveBest acc] else [])
       ++ (if b then [Trainer.EvStopped i] else [])).
Proof.
  unfold Trainer.epoch. intro H.
  destruct (train_epoch (Trainer.params st)) as [p|e] eqn:Ep; [|discriminate].
  cbn [bind] in H.
  destruct (test_freq =? 0)%Z eqn:Ef; [discriminate|].
  apply Z.eqb_neq in Ef. split; [exact Ef|].
  destruct (Z.of_nat i mod test_freq =? 0)%Z eqn:Em.
  2:{ apply Z.eqb_neq in Em. injection H as <- <-.
      split; [reflexivity|]. left.
      cbn [Trainer.acc_max Trainer.best_epoch Trainer.stopper
           Trainer.epoch_ckpts Trainer.best_ckpt Trainer.trace
           Trainer.log Trainer.set_params].
      repeat split. exact Em. }
  apply Z.eqb_eq in Em.
  cbn [Trainer.params Trainer.log Trainer.set_params] in H.
  destruct (test_accuracy p 0%Z) as [acc|e] eqn:Et; [|discriminate].
  cbn [bind] in H.
  change (Trainer.acc_max
            (Trainer.save_epoch Params i acc
               (Trainer.log Params (Trainer.EvTest 0)
                  (Trainer.log Params (Trainer.EvTrainEpoch i)
                     (Trainer.set_params Params p st)))))
    with (Trainer.acc_max st) in H.
  assert (Hupd : forall x : Trainer.state Params,
             Trainer.stopper x = Trainer.stopper st ->
             exists s1, Stopper.update (Trainer.stopper x) acc = Ok s1 /\
                        Stopper.update (Trainer.stopper st) acc = Ok s1).
  { intros x ->. eexists. split; apply Stopper_update_Ok. }
  unfold py_max.
  destruct (Qltb (Trainer.acc_max st) acc) eqn:Eb;
    match type of H with
    | bind (Stopper.update (Trainer.stopper ?x) acc) _ = _ =>
        destruct (Hupd x eq_refl) as [s1 [Hu1 Hu2]]; rewrite Hu1 in H
    end;
    cbn [bind] in H;
    destruct (Stopper.check_criterion s1) eqn:Ec;
    injection H as <- <-;
    (split; [reflexivity|]); right; (split; [exact Em|]);
    exists acc; cbv zeta;
    cbn [Trainer.acc_max Trainer.best_epoch Trainer.stopper
         Trainer.epoch_ckpts Trainer.best_ckpt Trainer.trace
         Trainer.log Trainer.set_params Trainer.set_stopper
         Trainer.save_epoch Trainer.save_best Trainer.params];
    rewrite ?Eb, ?Ec, <- ?app_assoc; cbn [app];
    repeat split; try reflexivity; try assumption.
Qed.

(** A property kept by every turn over the range is kept by the loop. *)
Lemma epochs_invariant (P : Trainer.state Params -> Prop)
  (range : list nat) :
  (forall i st st' b, In i range -> epoch i st = Ok (st', b) ->
                      P st -> P st') ->
  forall st st', epochs range st = Ok st' -> P st -> P st'.
Proof.
  induction range as [|i range IH]; intros Hstep st st' H HP.
  - injection H as <-. exact HP.
  - cbn [Trainer.epochs] in H.
    destruct (epoch i st) as [[st1 b]|e] eqn:E; [|discriminate].
    cbn [bind fst snd] in H.
    assert (HP1 : P st1) by (apply (Hstep i st st1 b); [left| |]; trivial).
    destruct b.
    + injection H as <-. exact HP1.
    + apply (IH (fun j s s' b' Hj => Hstep j s s' b' (or_intror Hj))
                st1 st' H HP1).
Qed.

End TrainFacts.

(** Feeding one more observation. *)
Lemma Stopper_feed_snoc (vs : list Q) (v : Q) :
  forall (s s1 s2 : Stopper.t) (bs : list bool),
    Stopper.feed s vs = Ok (s1, bs) ->
    Stopper.update s1 v = Ok s2 ->
    Stopper.feed s (vs ++ [v])
    = Ok (s2, bs ++ [Stopper.check_criterion s2]).
Proof.
  induction vs as [|w vs IH]; intros s s1 s2 bs Hf Hu.
  - cbn [Stopper.feed] in Hf. injection Hf as <- <-.
    cbn [app Stopper.feed]. rewrite Hu. reflexivity.
  - cbn [app Stopper.feed] in Hf |- *.
    rewrite Stopper_update_Ok in Hf |- *. cbn [bind] in Hf |- *.
    match type of Hf with
    | bind (Stopper.feed ?x vs) _ = _ => set (t := x) in *
    end.
    destruct (Stopper.feed t vs) as [[s1' bs']|e] eqn:E; [|discriminate Hf].
    cbn [bind fst snd] in Hf. injection Hf as <- <-.
    rewrite (IH t s1' s2 bs' E Hu). reflexivity.
Qed.

(** ** Trainer.train: checkpoints, the stopper and the result *)

Section TrainProperties.

Variable Params : Type.
Variable train_epoch : Params -> res Params.
Variable test_accuracy : Params -> Z -> res Q.
Variable test_freq : Z.

Local Abbreviation epoch :=
  (Trainer.epoch Params train_epoch test_accuracy test_freq).
Local Abbreviation epochs :=
  (Trainer.epochs Params train_epoch test_accuracy test_freq).

(** X15: ties keep the earlier checkpoint.  In a run that started in an
    empty checkpoint directory the best checkpoint is the first evaluated
    epoch that reached the maximum, and [best_epoch] is its index: every
    per-epoch checkpoint written before it has a strictly smaller metric
    and none written after it has a larger one. *)
Theorem X15_best_checkpoint_is_first_maximum
  (range : list nat) (p0 : Params) (s0 : Stopper.t)
  (st : Trainer.state Params) (b : Trainer.ckpt Params) :
  epochs range (Trainer.start Params p0 s0 [] None) = Ok st ->
  Trainer.best_ckpt st = Some b ->
  exists l1 l2,
    Trainer.epoch_ckpts st = l1 ++ (Trainer.best_epoch st, b) :: l2 /\
    (forall k c, In (k, c) l1 -> Trainer.ck_acc c < Trainer.ck_acc b) /\
    (forall k c, In (k, c) l2 -> Trainer.ck_acc c <= Trainer.ck_acc b).
Proof.
  intros Hloop Hbest.
  set (P := fun s : Trainer.state Params =>
    Trainer.best_inv Params s /\
    forall bb, Trainer.best_ckpt s = Some bb ->
      exists l1 l2,
        Trainer.epoch_ckpts s = l1 ++ (Trainer.best_epoch s, bb) :: l2 /\
        (forall k c, In (k, c) l1 -> Trainer.ck_acc c < Trainer.ck_acc bb) /\
        (forall k c, In (k, c) l2 -> Trainer.ck_acc c <= Trainer.ck_acc bb)).
  assert (HP : P st).
  { apply (epochs_invariant Params train_epoch test_accuracy test_freq
             P range) with (st := Trainer.start Params p0 s0 [] None);
      [|exact Hloop|].
    - intros i s s' fl _ He [Hinv Hfirst].
      split; [exact (best_inv_epoch _ _ _ _ _ _ _ _ He Hinv)|].
      destruct Hinv as [Hle Hb].
      destruct (epoch_spec _ _ _ _ _ _ _ _ He) as [_ [_ Hcase]].
      destruct Hcase as [[_ [_ [_ [Hbe [_ [Hck [Hbc _]]]]]]]|[_ [acc Hev]]].
      + intros bb Hbb. rewrite Hbe, Hck. apply Hfirst. rewrite <- Hbc. exact Hbb.
      + cbv zeta in Hev.
        destruct Hev as [_ [_ [_ [Hck [_ [Hbe [Hbc _]]]]]]].
        intros bb Hbb. rewrite Hck, Hbe. rewrite Hbc in Hbb.
        destruct (Qltb (Trainer.acc_max s) acc) eqn:E.
        * injection Hbb as <-. exists (Trainer.epoch_ckpts s), [].
          split; [reflexivity|]. split; [|intros k c []].
          intros k c Hin. cbn [Trainer.ck_acc].
          apply Qltb_true in E.
          apply (Qle_lt_trans _ _ _ (Hle k c Hin) E).
        * destruct (Hfirst bb Hbb) as [l1 [l2 [Hl [H1 H2]]]].
          exists l1, (l2 ++ [(i, {| Trainer.ck_params := Trainer.params s';
                                    Trainer.ck_acc := acc |})]).
          split; [rewrite Hl, <- app_assoc; reflexivity|].
          split; [exact H1|].
          intros k c Hin. apply in_app_or in Hin.
          destruct Hin as [Hin|[Hin|[]]]; [exact (H2 k c Hin)|].
          injection Hin as _ <-. cbn [Trainer.ck_acc].
          rewrite Hbb in Hb. destruct Hb as [Hb _]. rewrite Hb.
          apply Qltb_false. exact E.
    - split; [apply best_inv_start|]. intros bb Hbb. discriminate Hbb. }
  exact (proj2 HP b Hbest).
Qed.

(** X16: the stopper is fed exactly the accuracies of the evaluated
    epochs, one [update] per per-epoch checkpoint and in their order; and
    when its best value started at 0, as the constructor leaves it, the
    stopper's [value_max] and the trainer's [acc_max] are the same number
    throughout. *)
Theorem X16_stopper_sees_the_evaluated_accuracies
  (range : list nat) (p0 : Params) (s0 : Stopper.t)
  (st : Trainer.state Params) :
  Stopper.value_max s0 = 0 ->
  epochs range (Trainer.start Params p0 s0 [] None) = Ok st ->
  (exists bs,
     Stopper.feed s0
       (map (fun e => Trainer.ck_acc (snd e)) (Trainer.epoch_ckpts st))
     = Ok (Trainer.stopper st, bs)) /\
  Stopper.value_max (Trainer.stopper st) = Trainer.acc_max st.
Proof.
  intros H0 Hloop.
  set (P := fun s : Trainer.state Params =>
    (exists bs,
       Stopper.feed s0
         (map (fun e => Trainer.ck_acc (snd e)) (Trainer.epoch_ckpts s))
       = Ok (Trainer.stopper s, bs)) /\
    Stopper.value_max (Trainer.stopper s) = Trainer.acc_max s).
  apply (epochs_invariant Params train_epoch test_accuracy test_freq
           P range) with (st := Trainer.start Params p0 s0 [] None);
    [|exact Hloop|].
  - intros i s s' fl _ He [[bs Hfeed] Hmax].
    destruct (epoch_spec _ _ _ _ _ _ _ _ He) as [_ [_ Hcase]].
    destruct Hcase as [[_ [_ [Ham [_ [Hst [Hck _]]]]]]|[_ [acc Hev]]].
    + split; [exists bs; rewrite Hck, Hst; exact Hfeed|].
      rewrite Hst, Ham. exact Hmax.
    + cbv zeta in Hev. destruct Hev as [_ [Hu [_ [Hck [Ham _]]]]].
      split.
      * eexists. rewrite Hck, map_app. cbn [map snd Trainer.ck_acc].
        apply (Stopper_feed_snoc _ _ _ _ _ _ Hfeed Hu).
      * rewrite Stopper_update_Ok in Hu. injection Hu as Hu.
        rewrite <- Hu, Ham. cbn [Stopper.value_max]. rewrite Hmax.
        reflexivity.
  - split; [exists []; reflexivity|]. exact H0.
Qed.

(** X17: a per-epoch checkpoint is written exactly for evaluated epochs:
    each carries an epoch index of the range that is a multiple of
    [test_freq], and its metadata is the accuracy that the evaluation
    without augmentation reported for the parameters stored with it. *)
Theorem X17_checkpoints_belong_to_evaluated_epochs
  (range : list nat) (p0 : Params) (s0 : Stopper.t)
  (st : Trainer.state Params) (i : nat) (c : Trainer.ckpt Params) :
  epochs range (Trainer.start Params p0 s0 [] None) = Ok st ->
  In (i, c) (Trainer.epoch_ckpts st) ->
  In i range /\
  (Z.of_nat i mod test_freq = 0)%Z /\
  test_accuracy (Trainer.ck_params c) 0%Z = Ok (Trainer.ck_acc c).
Proof.
  intros Hloop Hin.
  set (P := fun s : Trainer.state Params =>
    forall j d, In (j, d) (Trainer.epoch_ckpts s) ->
      In j range /\ (Z.of_nat j mod test_freq = 0)%Z /\
      test_accuracy (Trainer.ck_params d) 0%Z = Ok (Trainer.ck_acc d)).
  assert (HP : P st).
  { apply (epochs_invariant Params train_epoch test_accuracy test_freq
             P range) with (st := Trainer.start Params p0 s0 [] None);
      [|exact Hloop|].
    - intros k s s' fl Hk He HPs.
      destruct (epoch_spec _ _ _ _ _ _ _ _ He) as [_ [_ Hcase]].
      destruct Hcase as [[_ [_ [_ [_ [_ [Hck _]]]]]]|[Hmod [acc Hev]]].
      + intros j d Hj. rewrite Hck in Hj. exact (HPs j d Hj).
      + cbv zeta in Hev. destruct Hev as [Ht [_ [_ [Hck _]]]].
        intros j d Hj. rewrite Hck in Hj. apply in_app_or in Hj.
        destruct Hj as [Hj|[Hj|[]]]; [exact (HPs j d Hj)|].
        injection Hj as <- <-. cbn [Trainer.ck_params Trainer.ck_acc].
        repeat split; assumption.
    - intros j d []. }
  exact (HP i c Hin).
Qed.

(** X18: an evaluation cadence of 0 is found only in the loop: for
    [test_freq = 0] and at least one epoch, [train] first trains epoch 0;
    if that call returns, [train] raises at [i % self.test_freq] of the
    first turn, and if it raises, [train] raises the same exception. *)
Theorem X18_zero_test_freq_raises
  (n_max_epoch n_tta : Z) (s0 : Stopper.t) (p0 : Params)
  (dir : list (nat * Trainer.ckpt Params))
  (best : option (Trainer.ckpt Params)) :
  test_freq = 0%Z -> (0 < n_max_epoch)%Z ->
  (forall p1, train_epoch p0 = Ok p1 ->
     Trainer.train Params train_epoch test_accuracy test_freq
       n_max_epoch n_tta s0 p0 dir best
     = Raise ZeroDivisionError) /\
  (forall e, train_epoch p0 = Raise e ->
     Trainer.train Params train_epoch test_accuracy test_freq
       n_max_epoch n_tta s0 p0 dir best
     = Raise e).
Proof.
  intros Hf Hn. unfold Trainer.train.
  destruct (Z.to_nat n_max_epoch) as [|m] eqn:E; [lia|].
  cbn [seq Trainer.epochs]. unfold Trainer.epoch.
  cbn [Trainer.start Trainer.params].
  split.
  - intros p1 ->. cbn [bind]. rewrite Hf. reflexivity.
  - intros e ->. reflexivity.
Qed.

(** X19: the metric [train] returns is never negative and never below
    the accuracy of an evaluated epoch, in a run that started in an empty
    checkpoint directory. *)
Theorem X19_result_bounds_every_evaluated_accuracy
  (n_max_epoch n_tta : Z) (s0 : Stopper.t) (p0 : Params)
  (r : Q) (st' : Trainer.state Params) :
  Trainer.train Params train_epoch test_accuracy test_freq
    n_max_epoch n_tta s0 p0 [] None = Ok (r, st') ->
  0 <= r /\
  forall i c, In (i, c) (Trainer.epoch_ckpts st') -> Trainer.ck_acc c <= r.
Proof.
  unfold Trainer.train. intro H.
  destruct (epochs (seq 0 (Z.to_nat n_max_epoch))
              (Trainer.start Params p0 s0 [] None)) as [st|e] eqn:Hloop;
    [|discriminate H].
  cbn [bind] in H. unfold Trainer.finalize, Trainer.load_best in H.
  destruct (Trainer.best_ckpt st) as [c0|]; [|discriminate H].
  cbn [bind Trainer.params Trainer.log Trainer.set_params] in H.
  destruct (test_accuracy (Trainer.ck_params c0) n_tta) as [m_tta|e];
    [|discriminate H].
  cbn [bind Trainer.acc_max Trainer.log Trainer.set_params] in H.
  injection H as <- <-.
  cbn [Trainer.epoch_ckpts Trainer.log Trainer.set_params].
  pose proof (best_inv_epochs Params train_epoch test_accuracy test_freq
                _ _ _ Hloop (best_inv_start Params p0 s0)) as [Hle _].
  assert (Hnn : 0 <= Trainer.acc_max st).
  { apply (epochs_invariant Params train_epoch test_accuracy test_freq
             (fun s => 0 <= Trainer.acc_max s)
             (seq 0 (Z.to_nat n_max_epoch))) with
        (st := Trainer.start Params p0 s0 [] None);
      [|exact Hloop|apply Qle_refl].
    intros i s s' fl _ He Hs.
    destruct (epoch_spec _ _ _ _ _ _ _ _ He) as [_ [_ Hcase]].
    destruct Hcase as [[_ [_ [Ham _]]]|[_ [acc Hev]]].
    - rewrite Ham. exact Hs.
    - cbv zeta in Hev. destruct Hev as [_ [_ [_ [_ [Ham _]]]]].
      rewrite Ham. destruct (py_max_lub (Trainer.acc_max s) acc) as [Ha _].
      apply (Qle_trans _ _ _ Hs Ha). }
  destruct (py_max_lub (Trainer.acc_max st) m_tta) as [Ha _].
  split; [apply (Qle_trans _ _ _ Hnn Ha)|].
  intros i c Hin. apply (Qle_trans _ _ _ (Hle i c Hin) Ha).
Qed.

(** The loop from a state without a break so far: the failure count stays
    between 0 and the number of per-epoch checkpoints, the threshold is
    untouched, and at the exit either no break has happened or the
    criterion holds. *)
Lemma epochs_break (n0 : Z) (range : list nat) :
  forall st st' : Trainer.state Params,
    epochs range st = Ok st' ->
    (forall j, ~ In (Trainer.EvStopped j) (Trainer.trace st)) ->
    (0 <= Stopper.num_fails (Trainer.stopper st)
       <= Z.of_nat (length (Trainer.epoch_ckpts st)))%Z ->
    Stopper.n_observation (Trainer.stopper st) = n0 ->
    (0 <= Stopper.num_fails (Trainer.stopper st')
       <= Z.of_nat (length (Trainer.epoch_ckpts st')))%Z /\
    Stopper.n_observation (Trainer.stopper st') = n0 /\
    ((forall j, ~ In (Trainer.EvStopped j) (Trainer.trace st')) \/
     Stopper.check_criterion (Trainer.stopper st') = true).
Proof.
  induction range as [|i range IH]; intros st st' H Hno Hb Hn.
  - injection H as <-. repeat split; try assumption; try lia. left. exact Hno.
  - cbn [Trainer.epochs] in H.
    destruct (epoch i st) as [[st1 fl]|e] eqn:E; [|discriminate].
    cbn [bind fst snd] in H.
    destruct (epoch_spec _ _ _ _ _ _ _ _ E) as [_ [_ Hcase]].
    destruct Hcase as [[_ [Hfl [_ [_ [Hst [Hck [_ Htr]]]]]]]|[_ [acc Hev]]].
    + subst fl. apply (IH st1 st' H).
      * intros j Hj. rewrite Htr in Hj. apply in_app_or in Hj.
        destruct Hj as [Hj|[Hj|[]]]; [exact (Hno j Hj) | discriminate Hj].
      * rewrite Hst, Hck. exact Hb.
      * rewrite Hst. exact Hn.
    + cbv zeta in Hev.
      destruct Hev as [_ [Hu [Hfl [Hck [_ [_ [_ Htr]]]]]]].
      rewrite Stopper_update_Ok in Hu. injection Hu as Hu.
      assert (Hb1 : (0 <= Stopper.num_fails (Trainer.stopper st1)
                       <= Z.of_nat (length (Trainer.epoch_ckpts st1)))%Z).
      { rewrite <- Hu, Hck, length_app. cbn [Stopper.num_fails length].
        destruct (Qgeb _ _); lia. }
      assert (Hn1 : Stopper.n_observation (Trainer.stopper st1) = n0)
        by (rewrite <- Hu; exact Hn).
      destruct fl.
      * injection H as <-. split; [exact Hb1|]. split; [exact Hn1|].
        right. symmetry. exact Hfl.
      * apply (IH st1 st' H); trivial.
        intros j Hj. rewrite Htr in Hj.
        apply in_app_or in Hj. destruct Hj as [Hj|Hj]; [exact (Hno j Hj)|].
        destruct (Qltb (Trainer.acc_max st) acc); cbn [app In] in Hj;
          repeat (destruct Hj as [Hj|Hj]; [discriminate Hj|]); exact Hj.
Qed.

(** X20: the loop breaks only on the criterion, and not before
    [n_observation] epochs have been evaluated.  In a run that started
    with a failure count of 0 and an empty checkpoint directory, a break
    (the trace records it) means that the failure count equals the
    threshold, which is then between 0 and the number of per-epoch
    checkpoints written. *)
Theorem X20_break_needs_threshold_many_evaluations
  (range : list nat) (p0 : Params) (s0 : Stopper.t)
  (st : Trainer.state Params) (i : nat) :
  Stopper.num_fails s0 = 0%Z ->
  epochs range (Trainer.start Params p0 s0 [] None) = Ok st ->
  In (Trainer.EvStopped i) (Trainer.trace st) ->
  Stopper.num_fails (Trainer.stopper st) = Stopper.n_observation s0 /\
  (0 <= Stopper.n_observation s0
     <= Z.of_nat (length (Trainer.epoch_ckpts st)))%Z.
Proof.
  intros H0 Hloop Hin.
  destruct (epochs_break (Stopper.n_observation s0) range _ _ Hloop)
    as [Hb [Hn Hcase]].
  - intros j [].
  - cbn [Trainer.start Trainer.stopper Trainer.epoch_ckpts length].
    rewrite H0. lia.
  - reflexivity.
  - destruct Hcase as [Hno|Hc]; [exfalso; exact (Hno i Hin)|].
    unfold Stopper.check_criterion in Hc. apply Z.eqb_eq in Hc.
    rewrite Hn in Hc. split; [exact Hc|]. lia.
Qed.

End TrainProperties.

Lemma X15_best_checkpoint_is_first_maximum_witness :
  exists l1 l2,
    Trainer.epoch_ckpts Runs.exit_state
    = l1 ++ (Trainer.best_epoch Runs.exit_state,
             {| Trainer.ck_params := 2%nat; Trainer.ck_acc := 0.62 |}) :: l2 /\
    (forall k c, In (k, c) l1 -> Trainer.ck_acc c < 0.62) /\
    (forall k c, In (k, c) l2 -> Trainer.ck_acc c <= 0.62).
Proof.
  apply (X15_best_checkpoint_is_first_maximum
           nat Scenario.train_epoch (Scenario.test_accuracy 0.63) 1 (seq 0 5) 0%nat
           Scenario.stopper_3_0 Runs.exit_state
           {| Trainer.ck_params := 2%nat; Trainer.ck_acc := 0.62 |}).
  - vm_compute. reflexivity.
  - reflexivity.
Defined.

Lemma X16_stopper_sees_the_evaluated_accuracies_witness :
  (exists bs,
     Stopper.feed Scenario.stopper_3_0 [0.60; 0.62; 0.61]
     = Ok (Trainer.stopper Runs.exit_state, bs)) /\
  Stopper.value_max (Trainer.stopper Runs.exit_state)
  = Trainer.acc_max Runs.exit_state.
Proof.
  apply (X16_stopper_sees_the_evaluated_accuracies
           nat Scenario.train_epoch (Scenario.test_accuracy 0.63) 1 (seq 0 5) 0%nat
           Scenario.stopper_3_0 Runs.exit_state).
  - reflexivity.
  - vm_compute. reflexivity.
Defined.

Lemma X17_checkpoints_belong_to_evaluated_epochs_witness :
  In 1%nat (seq 0 5) /\
  (Z.of_nat 1 mod 1 = 0)%Z /\
  Scenario.test_accuracy 0.63 2%nat 0%Z = Ok 0.62.
Proof.
  apply (X17_checkpoints_belong_to_evaluated_epochs
           nat Scenario.train_epoch (Scenario.test_accuracy 0.63) 1 (seq 0 5) 0%nat
           Scenario.stopper_3_0 Runs.exit_state 1%nat
           {| Trainer.ck_params := 2%nat; Trainer.ck_acc := 0.62 |}).
  - vm_compute. reflexivity.
  - right. left. reflexivity.
Defined.

Lemma X18_zero_test_freq_raises_witness :
  Trainer.train nat Scenario.train_epoch (Scenario.test_accuracy 0.63) 0 5 8
    Scenario.stopper_3_0 0%nat [] None
  = Raise ZeroDivisionError.
Proof.
  apply (X18_zero_test_freq_raises
           nat Scenario.train_epoch (Scenario.test_accuracy 0.63) 0
           5 8 Scenario.stopper_3_0 0%nat [] None eq_refl ltac:(lia)
         ) with (p1 := 1%nat).
  reflexivity.
Defined.

Lemma X19_result_bounds_every_evaluated_accuracy_witness :
  0 <= 0.63 /\
  forall i c,
    In (i, c) (Trainer.epoch_ckpts Runs.exit_state) ->
    Trainer.ck_acc c <= 0.63.
Proof.
  apply (X19_result_bounds_every_evaluated_accuracy
           nat Scenario.train_epoch (Scenario.test_accuracy 0.63) 1 5 8
           Scenario.stopper_3_0 0%nat 0.63
           (Trainer.log nat (Trainer.EvTest 8)
              (Trainer.log nat Trainer.EvLoadBest
                 (Trainer.set_params nat 2%nat Runs.exit_state)))).
  vm_compute. reflexivity.
Defined.

Lemma X20_break_needs_threshold_many_evaluations_witness :
  Stopper.num_fails (Trainer.stopper Runs.exit_state) = 3%Z /\
  (0 <= 3 <= Z.of_nat (length (Trainer.epoch_ckpts Runs.exit_state)))%Z.
Proof.
  apply (X20_break_needs_threshold_many_evaluations
           nat Scenario.train_epoch (Scenario.test_accuracy 0.63) 1 (seq 0 5) 0%nat
           Scenario.stopper_3_0 Runs.exit_state 2%nat).
  - reflexivity.
  - vm_compute. reflexivity.
  - do 11 right. left. reflexivity.
Defined.

Lemma best_ckpt_is_maximum_witness :
  exists b j,
    Trainer.best_ckpt Runs.exit_state = Some b /\
    In (j, b) (Trainer.epoch_ckpts Runs.exit_state) /\
    forall k c', In (k, c') (Trainer.epoch_ckpts Runs.exit_state) ->
                 Trainer.ck_acc c' <= Trainer.ck_acc b.
Proof.
  apply (best_ckpt_is_maximum
           nat Scenario.train_epoch (Scenario.test_accuracy 0.63) 1 (seq 0 5) 0%nat
           Scenario.stopper_3_0 Runs.exit_state 0%nat
           {| Trainer.ck_params := 1%nat; Trainer.ck_acc := 0.60 |}).
  - vm_compute. reflexivity.
  - left. reflexivity.
  - reflexivity.
Defined.

(** ** Trainer.train: the order of the epochs and the break *)

Lemma trained_app (tr1 tr2 : list Trainer.event) :
  Trace.trained (tr1 ++ tr2) = Trace.trained tr1 ++ Trace.trained tr2.
Proof. unfold Trace.trained. apply flat_map_app. Qed.

(** X21: epochs are trained in the order of the range, none twice and
    none skipped: when the loop ends, the epochs trained during it are a
    prefix of the range, and the whole range unless the loop ended in a
    break, in which case the criterion of the stopper holds. *)
Theorem X21_trained_epochs_are_a_prefix_of_the_range
  (Params : Type) (train_epoch : Params -> res Params)
  (test_accuracy : Params -> Z -> res Q) (test_freq : Z)
  (range : list nat) (st st' : Trainer.state Params) :
  Trainer.epochs Params train_epoch test_accuracy test_freq range st
    = Ok st' ->
  exists done rest,
    range = done ++ rest /\
    Trace.trained (Trainer.trace st')
    = Trace.trained (Trainer.trace st) ++ done /\
    (rest = [] \/
     Stopper.check_criterion (Trainer.stopper st') = true).
Proof.
  revert st. induction range as [|i range IH]; intros st H.
  - injection H as <-. exists [], []. split; [reflexivity|].
    split; [rewrite app_nil_r; reflexivity|]. left. reflexivity.
  - cbn [Trainer.epochs] in H.
    destruct (Trainer.epoch Params train_epoch test_accuracy test_freq i st)
      as [[st1 fl]|e] eqn:E; [|discriminate].
    cbn [bind fst snd] in H.
    assert (Htr : Trace.trained (Trainer.trace st1)
                  = Trace.trained (Trainer.trace st) ++ [i] /\
                  fl = Stopper.check_criterion (Trainer.stopper st1) \/
                  Trace.trained (Trainer.trace st1)
                  = Trace.trained (Trainer.trace st) ++ [i] /\ fl = false).
    { destruct (epoch_spec _ _ _ _ _ _ _ _ E) as [_ [_ Hcase]].
      destruct Hcase as [[_ [Hfl [_ [_ [_ [_ [_ Ht]]]]]]]|[_ [acc Hev]]].
      - right. rewrite Ht, trained_app. split; [reflexivity | exact Hfl].
      - cbv zeta in Hev. destruct Hev as [_ [_ [Hfl [_ [_ [_ [_ Ht]]]]]]].
        left. split; [|exact Hfl].
        rewrite Ht, trained_app. f_equal.
        destruct (Qltb (Trainer.acc_max st) acc); destruct fl; reflexivity. }
    destruct fl.
    + injection H as <-. exists [i], range. split; [reflexivity|].
      destruct Htr as [[Ht Hfl]|[_ Hfl]]; [|discriminate Hfl].
      split; [exact Ht|]. right. symmetry. exact Hfl.
    + destruct (IH st1 H) as [done [rest [Hr [Ht Hc]]]].
      exists (i :: done), rest. split; [rewrite Hr; reflexivity|].
      split; [|exact Hc].
      rewrite Ht.
      destruct Htr as [[Ht1 _]|[Ht1 _]]; rewrite Ht1, <- app_assoc;
        reflexivity.
Qed.

Lemma X21_trained_epochs_are_a_prefix_of_the_range_witness :
  exists done rest,
    seq 0 5 = done ++ rest /\
    Trace.trained (Trainer.trace Runs.exit_state) = [] ++ done /\
    (rest = [] \/
     Stopper.check_criterion (Trainer.stopper Runs.exit_state) = true).
Proof.
  apply (X21_trained_epochs_are_a_prefix_of_the_range
           nat Scenario.train_epoch (Scenario.test_accuracy 0.63) 1 (seq 0 5)
           (Trainer.start nat 0%nat Scenario.stopper_3_0 [] None)
           Runs.exit_state).
  vm_compute. reflexivity.
Defined.

(** With a margin that is not positive, an evaluation at every epoch and
    a training and an evaluation that never fail, the loop breaks as soon
    as the count reaches the threshold, whatever the accuracies. *)
Lemma zero_margin_loop
  (Params : Type) (train_epoch : Params -> res Params)
  (acc_of : Params -> Z -> Q) (t : Z) (m : nat) :
  (forall p, exists p', train_epoch p = Ok p') ->
  forall (a : nat) (st : Trainer.state Params),
    Stopper.delta (Trainer.stopper st) <= 0 ->
    Stopper.n_observation (Trainer.stopper st) = t ->
    (0 <= Stopper.num_fails (Trainer.stopper st) < t)%Z ->
    (t - Stopper.num_fails (Trainer.stopper st) <= Z.of_nat m)%Z ->
    exists st',
      Trainer.epochs Params train_epoch (fun p n => Ok (acc_of p n)) 1
        (seq a m) st = Ok st' /\
      In (Trainer.EvStopped
            (a + Z.to_nat (t - Stopper.num_fails (Trainer.stopper st)) - 1))
         (Trainer.trace st') /\
      length (Trainer.epoch_ckpts st')
      = (length (Trainer.epoch_ckpts st)
         + Z.to_nat (t - Stopper.num_fails (Trainer.stopper st)))%nat.
Proof.
  intro Htrain.
  induction m as [|m IH]; intros a st Hd Hn Hf Hm; [lia|].
  cbn [seq Trainer.epochs].
  destruct (Trainer.epoch Params train_epoch (fun p n => Ok (acc_of p n)) 1
              a st) as [[st1 fl]|e] eqn:E.
  2:{ unfold Trainer.epoch in E.
      destruct (Htrain (Trainer.params st)) as [p' Hp]. rewrite Hp in E.
      cbn [bind Z.eqb] in E.
      rewrite Z.mod_1_r in E. cbn [Z.eqb bind] in E.
      rewrite Stopper_update_Ok in E. cbn [bind] in E.
      destruct (Stopper.check_criterion _) in E; discriminate E. }
  cbn [bind fst snd].
  destruct (epoch_spec _ _ _ _ _ _ _ _ E) as [_ [_ Hcase]].
  destruct Hcase as [[Hmod _]|[_ [acc Hev]]];
    [rewrite Z.mod_1_r in Hmod; congruence|].
  cbv zeta in Hev. destruct Hev as [_ [Hu [Hfl [Hck [_ [_ [_ Htr]]]]]]].
  rewrite Stopper_update_Ok in Hu. injection Hu as Hu.
  assert (Hfail : Qgeb (py_max (Stopper.value_max (Trainer.stopper st)) acc
                        - acc) (Stopper.delta (Trainer.stopper st)) = true).
  { apply Qgeb_true.
    destruct (py_max_lub (Stopper.value_max (Trainer.stopper st)) acc). lra. }
  rewrite Hfail in Hu.
  assert (Hnf1 : Stopper.num_fails (Trainer.stopper st1)
                 = (Stopper.num_fails (Trainer.stopper st) + 1)%Z)
    by (rewrite <- Hu; reflexivity).
  assert (Hn1 : Stopper.n_observation (Trainer.stopper st1) = t)
    by (rewrite <- Hu; exact Hn).
  assert (Hd1 : Stopper.delta (Trainer.stopper st1) <= 0)
    by (rewrite <- Hu; exact Hd).
  assert (Hlen1 : length (Trainer.epoch_ckpts st1)
                  = S (length (Trainer.epoch_ckpts st)))
    by (rewrite Hck, length_app; cbn [length]; lia).
  unfold Stopper.check_criterion in Hfl. rewrite Hnf1, Hn1 in Hfl.
  destruct fl.
  - symmetry in Hfl. apply Z.eqb_eq in Hfl.
    exists st1. split; [reflexivity|].
    replace (a + Z.to_nat (t - Stopper.num_fails (Trainer.stopper st)) - 1)%nat
      with a by lia.
    split; [|lia].
    rewrite Htr. apply in_or_app. right.
    destruct (Qltb (Trainer.acc_max st) acc); cbn [app In]; tauto.
  - symmetry in Hfl. apply Z.eqb_neq in Hfl.
    destruct (IH (S a) st1 Hd1 Hn1) as [st' [Hl [Hin Hlen]]]; [lia|lia|].
    exists st'. split; [exact Hl|]. rewrite Hnf1 in Hin, Hlen.
    replace (a + Z.to_nat (t - Stopper.num_fails (Trainer.stopper st)) - 1)%nat
      with (S a + Z.to_nat (t - (Stopper.num_fails (Trainer.stopper st) + 1))
            - 1)%nat by lia.
    split; [exact Hin|]. lia.
Qed.

(** X22: with a margin of 0 (or a negative one) the accuracies play no
    part in early stopping.  When [train_epoch] and the evaluation do not
    raise, every epoch is evaluated ([test_freq = 1]) and the stopper
    starts with a failure count of 0 and a threshold [t] with
    [1 <= t <= n_max_epoch], the loop breaks at epoch [t - 1], after
    exactly [t] evaluations, whatever accuracies the evaluations
    report. *)
Theorem X22_nonpositive_margin_breaks_after_threshold_epochs
  (Params : Type) (train_epoch : Params -> res Params)
  (acc_of : Params -> Z -> Q) (n_max_epoch : Z)
  (p0 : Params) (s0 : Stopper.t) :
  (forall p, exists p', train_epoch p = Ok p') ->
  Stopper.delta s0 <= 0 ->
  Stopper.num_fails s0 = 0%Z ->
  (1 <= Stopper.n_observation s0 <= n_max_epoch)%Z ->
  exists st,
    Trainer.epochs Params train_epoch (fun p n => Ok (acc_of p n)) 1
      (seq 0 (Z.to_nat n_max_epoch)) (Trainer.start Params p0 s0 [] None)
    = Ok st /\
    In (Trainer.EvStopped (Z.to_nat (Stopper.n_observation s0) - 1))
       (Trainer.trace st) /\
    length (Trainer.epoch_ckpts st) = Z.to_nat (Stopper.n_observation s0).
Proof.
  intros Htrain Hd H0 Ht.
  destruct (zero_margin_loop Params train_epoch acc_of
              (Stopper.n_observation s0) (Z.to_nat n_max_epoch) Htrain 0%nat
              (Trainer.start Params p0 s0 [] None))
    as [st [Hl [Hin Hlen]]];
    cbn [Trainer.start Trainer.stopper Trainer.epoch_ckpts length] in *;
    try rewrite H0; try assumption; try reflexivity; try lia.
  exists st. split; [exact Hl|].
  rewrite H0, Z.sub_0_r in Hin, Hlen. cbn [Nat.add] in Hin, Hlen.
  split; assumption.
Qed.

Lemma X22_nonpositive_margin_breaks_after_threshold_epochs_witness :
  exists st,
    Trainer.epochs nat Scenario.train_epoch
      (fun p n => Ok (nth (p - 1) Scenario.accuracies 0)) 1
      (seq 0 (Z.to_nat 5))
      (Trainer.start nat 0%nat Scenario.stopper_3_0 [] None) = Ok st /\
    In (Trainer.EvStopped (Z.to_nat 3 - 1)) (Trainer.trace st) /\
    length (Trainer.epoch_ckpts st) = Z.to_nat 3.
Proof.
  apply (X22_nonpositive_margin_breaks_after_threshold_epochs
           nat Scenario.train_epoch
           (fun p n => nth (p - 1) Scenario.accuracies 0) 5
           0%nat Scenario.stopper_3_0).
  - intro p. exists (S p). reflexivity.
  - cbn. unfold Qle. cbn. lia.
  - reflexivity.
  - cbn. lia.
Defined.

(** ** Trainer.train with the evaluation of Trainer.test *)

(** The evaluation without augmentation and with a positive batch size
    does not raise, and fills the arrays. *)
Lemma test_default_Ok (label_of : nat -> Z) (classify : nat -> Z * Q)
  (n_samples : nat) (batch_size : Z) :
  (0 < batch_size)%Z ->
  Trainer.test label_of classify n_samples batch_size 0
  = Ok (Trainer.filled label_of classify n_samples 0).
Proof.
  intro Hpos. unfold Trainer.test, Trainer.DataLoader, Trainer.setup.
  cbn [Z.eqb negb snd bind].
  replace (batch_size <=? 0)%Z with false by (symmetry; apply Z.leb_gt; lia).
  cbn [bind]. unfold Trainer.enumerate.
  pose proof (loop_filled label_of classify (Z.to_nat batch_size)
                ltac:(lia) n_samples 0) as H.
  cbv zeta in H. cbn [Nat.mul Nat.add] in H.
  change (Trainer.zeros n_samples)
    with (Trainer.filled label_of classify 0 n_samples).
  exact H.
Qed.

(** With more views than the batch size the evaluation raises. *)
Lemma test_views_exceed_batch (label_of : nat -> Z) (classify : nat -> Z * Q)
  (n_samples : nat) (batch_size n_tta : Z) :
  (0 <= batch_size)%Z -> (batch_size < n_tta)%Z -> (batch_size < 2 ^ 53)%Z ->
  Trainer.test label_of classify n_samples batch_size n_tta
  = Raise ValueError.
Proof.
  intros Hb Hn Hlt. unfold Trainer.test, Trainer.DataLoader, Trainer.setup.
  replace (n_tta =? 0)%Z with false by (symmetry; apply Z.eqb_neq; lia).
  cbn [negb]. rewrite py_int_true_div_floor by lia.
  rewrite Z.div_small by lia. reflexivity.
Qed.

(** The loop does not raise when the cadence is not 0 and neither
    [train_epoch] nor the evaluation without augmentation raises. *)
Lemma epochs_total
  (Params : Type) (train_epoch : Params -> res Params)
  (test_accuracy : Params -> Z -> res Q) (test_freq : Z)
  (range : list nat) :
  test_freq <> 0%Z ->
  (forall p, exists p', train_epoch p = Ok p') ->
  (forall p, exists a, test_accuracy p 0%Z = Ok a) ->
  forall st, exists st',
    Trainer.epochs Params train_epoch test_accuracy test_freq range st
    = Ok st'.
Proof.
  intros Hf Htrain Ht. induction range as [|i range IH]; intro st.
  - exists st. reflexivity.
  - cbn [Trainer.epochs].
    assert (He : exists st1 fl,
               Trainer.epoch Params train_epoch test_accuracy test_freq i st
               = Ok (st1, fl)).
    { unfold Trainer.epoch.
      destruct (Htrain (Trainer.params st)) as [p' ->]. cbn [bind].
      replace (test_freq =? 0)%Z with false
        by (symmetry; apply Z.eqb_neq; exact Hf).
      destruct (Z.of_nat i mod test_freq =? 0)%Z; [|eexists; eexists; reflexivity].
      cbn [Trainer.params Trainer.log Trainer.set_params].
      destruct (Ht p') as [acc ->].
      cbn [bind]. rewrite Stopper_update_Ok. cbn [bind].
      destruct (Stopper.check_criterion _); eexists; eexists; reflexivity. }
    destruct He as [st1 [fl ->]]. cbn [bind fst snd].
    destruct fl; [exists st1; reflexivity | apply IH].
Qed.

(** Positions within the array are all found. *)
Lemma take_Ok (arr : list Z) (ii : list nat) :
  Forall (fun i => (i < length arr)%nat) ii ->
  exists l, Pipeline.take arr ii = Ok l /\ length l = length ii.
Proof.
  induction 1 as [|i ii Hi _ IH].
  - exists []. split; reflexivity.
  - destruct IH as [l [Hl Hlen]]. cbn [Pipeline.take].
    destruct (nth_error arr i) as [x|] eqn:E.
    + exists (x :: l). rewrite Hl. cbn [bind length]. split; [reflexivity | lia].
    + apply nth_error_None in E. lia.
Qed.

(** The grid of at least one mistake holds at least one image. *)
Lemma make_grid_visualize_Ok {image : Type} (get_signed_image : nat -> image)
  (get_class_samples : nat -> Z -> list image)
  (ii_worst : list nat) (labels_gt : list Z) :
  ii_worst <> [] -> length labels_gt = length ii_worst ->
  Pipeline.make_grid
    (Visualize.visualize_errors image get_signed_image get_class_samples
       ii_worst labels_gt) 6
  = Ok tt.
Proof.
  intros Hne Hlen. unfold Visualize.visualize_errors.
  rewrite visualize_fold.
  destruct ii_worst as [|i ii]; [congruence|].
  destruct labels_gt as [|l ls]; [discriminate Hlen|].
  cbn [combine flat_map app fst snd]. unfold Pipeline.make_grid.
  cbn [length Nat.min]. reflexivity.
Qed.

(** X24: with a positive batch size and a cadence that is not 0, when
    [train_epoch] does not raise and the metrics calculator names at
    least one worst mistake, all of them samples of the evaluation set,
    the epoch loop of [train], evaluating through [Trainer.test], never
    raises, for every number of epochs and every stopper.  On an empty
    evaluation set every evaluation raises: there is no image for the
    grid, or a named mistake lies beyond the arrays. *)
Theorem X24_loop_never_raises_for_valid_configuration
  (Params : Type) (train_epoch : Params -> res Params)
  (label_of : nat -> Z) (classify : Params -> Z -> nat -> Z * Q)
  (accuracy : Trainer.arrays -> Q)
  (find_worst_mistakes : Trainer.arrays -> nat -> list nat)
  (image : Type) (get_signed_image : nat -> image)
  (get_class_samples : nat -> Z -> list image)
  (n_samples : nat) (batch_size test_freq : Z) (range : list nat)
  (st : Trainer.state Params) :
  (0 < batch_size)%Z ->
  (test_freq <> 0%Z ->
   (forall p, exists p', train_epoch p = Ok p') ->
   (forall a, length (Trainer.labels a) = n_samples ->
      find_worst_mistakes a 5%nat <> [] /\
      Forall (fun i => (i < n_samples)%nat) (find_worst_mistakes a 5%nat)) ->
   exists st',
     Trainer.epochs Params train_epoch
       (Pipeline.test_accuracy Params label_of classify accuracy
          find_worst_mistakes image get_signed_image get_class_samples
          n_samples batch_size)
       test_freq range st
     = Ok st') /\
  (n_samples = 0%nat ->
   forall p, exists e,
     Pipeline.test_accuracy Params label_of classify accuracy
       find_worst_mistakes image get_signed_image get_class_samples
       n_samples batch_size p 0
     = Raise e).
Proof.
  intro Hb. split.
  - intros Hf Htrain Hworst. apply epochs_total; [exact Hf|exact Htrain|].
    intro p. unfold Pipeline.test_accuracy.
    rewrite (test_default_Ok label_of (classify p 0%Z) n_samples batch_size Hb).
    cbn [bind].
    set (a := Trainer.filled label_of (classify p 0%Z) n_samples 0).
    assert (Hlen : length (Trainer.labels a) = n_samples).
    { unfold a, Trainer.filled. cbn [Trainer.labels repeat].
      rewrite length_app, length_map, length_seq. cbn [length]. lia. }
    destruct (Hworst a Hlen) as [Hne Hin].
    destruct (take_Ok (Trainer.labels a) (find_worst_mistakes a 5%nat))
      as [l [Hl Hll]]; [rewrite Hlen; exact Hin|].
    rewrite Hl. cbn [bind].
    rewrite (make_grid_visualize_Ok _ _ _ _ Hne Hll). cbn [bind].
    eexists. reflexivity.
  - intros H0 p. subst n_samples. unfold Pipeline.test_accuracy.
    rewrite (test_default_Ok label_of (classify p 0%Z) 0 batch_size Hb).
    cbn [bind]. unfold Trainer.filled.
    cbn [seq map repeat app Trainer.labels].
    destruct (find_worst_mistakes _ 5%nat) as [|i ii].
    + exists ZeroDivisionError. reflexivity.
    + exists IndexError. cbn [Pipeline.take].
      destruct i; reflexivity.
Qed.

Lemma X24_loop_never_raises_for_valid_configuration_witness :
  exists st',
    Trainer.epochs nat Scenario.train_epoch
      (Pipeline.test_accuracy nat (fun _ => 1%Z) (fun _ _ _ => (1%Z, 1))
         (fun _ => 1) (fun _ _ => [0%nat]) nat (fun idx => idx)
         (fun n label => repeat 0%nat n) 2 1)
      1 (seq 0 1)
      (Trainer.start nat 0%nat Scenario.stopper_3_001 [] None)
    = Ok st'.
Proof.
  apply (X24_loop_never_raises_for_valid_configuration
           nat Scenario.train_epoch (fun _ => 1%Z) (fun _ _ _ => (1%Z, 1))
           (fun _ => 1) (fun _ _ => [0%nat]) nat (fun idx => idx)
           (fun n label => repeat 0%nat n)
           2 1 1 (seq 0 1)
           (Trainer.start nat 0%nat Scenario.stopper_3_001 [] None)).
  - lia.
  - lia.
  - intro p. exists (S p). reflexivity.
  - intros a _. split; [discriminate|].
    constructor; [lia | constructor].
Defined.

(** X25: a number of views above the batch size is found only after the
    training.  For [0 <= batch_size < n_tta] and a batch size below
    [2^53], whenever the loop has ended and the best checkpoint is there,
    [train] raises in the final evaluation: the run returns no metric. *)
Theorem X25_too_many_views_fail_after_the_loop
  (Params : Type) (train_epoch : Params -> res Params)
  (label_of : nat -> Z) (classify : Params -> Z -> nat -> Z * Q)
  (accuracy : Trainer.arrays -> Q)
  (find_worst_mistakes : Trainer.arrays -> nat -> list nat)
  (image : Type) (get_signed_image : nat -> image)
  (get_class_samples : nat -> Z -> list image)
  (n_samples : nat)
  (batch_size test_freq n_max_epoch n_tta : Z)
  (s0 : Stopper.t) (p0 : Params)
  (dir : list (nat * Trainer.ckpt Params))
  (best : option (Trainer.ckpt Params))
  (st : Trainer.state Params) (c : Trainer.ckpt Params) :
  (0 <= batch_size)%Z -> (batch_size < n_tta)%Z -> (batch_size < 2 ^ 53)%Z ->
  Trainer.epochs Params train_epoch
    (Pipeline.test_accuracy Params label_of classify accuracy
       find_worst_mistakes image get_signed_image get_class_samples
       n_samples batch_size)
    test_freq (seq 0 (Z.to_nat n_max_epoch))
    (Trainer.start Params p0 s0 dir best) = Ok st ->
  Trainer.best_ckpt st = Some c ->
  Trainer.train Params train_epoch
    (Pipeline.test_accuracy Params label_of classify accuracy
       find_worst_mistakes image get_signed_image get_class_samples
       n_samples batch_size)
    test_freq n_max_epoch n_tta s0 p0 dir best
  = Raise ValueError.
Proof.
  intros Hb Hn Hlt Hloop Hbest. unfold Trainer.train. rewrite Hloop.
  cbn [bind]. unfold Trainer.finalize, Trainer.load_best. rewrite Hbest.
  cbn [bind Trainer.params Trainer.log Trainer.set_params].
  unfold Pipeline.test_accuracy at 1.
  rewrite test_views_exceed_batch by assumption. reflexivity.
Qed.

Lemma X25_too_many_views_fail_after_the_loop_witness :
  Trainer.train nat Scenario.train_epoch
    (Pipeline.test_accuracy nat (fun _ => 1%Z) (fun _ _ _ => (1%Z, 1))
       (fun _ => 1) (fun _ _ => [0%nat]) nat (fun idx => idx)
       (fun n label => repeat 0%nat n) 2 1)
    1 1 2 Scenario.stopper_3_001 0%nat [] None
  = Raise ValueError.
Proof.
  apply (X25_too_many_views_fail_after_the_loop
           nat Scenario.train_epoch (fun _ => 1%Z) (fun _ _ _ => (1%Z, 1))
           (fun _ => 1) (fun _ _ => [0%nat]) nat (fun idx => idx)
           (fun n label => repeat 0%nat n)
           2 1 1 1 2 Scenario.stopper_3_001 0%nat [] None
           Pipeline.exit_state
           {| Trainer.ck_params := 1%nat; Trainer.ck_acc := 1 |}).
  - lia.
  - lia.
  - lia.
  - vm_compute. reflexivity.
  - reflexivity.
Defined.
